(** * PLTR stock service: ingestion script and Flask routes

    A shallow embedding of [data_ingestion.py] and [routes.py].

    The repository is glue around three libraries: pandas writes a CSV into
    the SQLite file [pltr.db], the [sqlite3] module reads it back, Flask
    turns dictionaries into JSON responses.  The embedding therefore has

    - the values SQLite stores and the values Python sees ([sqlval],
      [pyval]), with the builtins [float()] and [int()] the routes apply;
    - the database file as a finite map from table names to row lists,
      together with the two SQL statements the routes issue;
    - a state-and-exception monad over a [world] that holds the database
      file, the wall clock and the trace of connection events, in which the
      three route handlers are written statement by statement. *)

From Stdlib Require Import ZArith QArith Ascii String List Bool Lia.
From Stdlib Require Import SpecFloat DecimalString.
From stdpp Require Import base gmap strings list sorting.

Set Warnings "-register-all".
Local Open Scope string_scope.
Local Open Scope Z_scope.

(** ** Values *)

(** Python's [float] is an IEEE-754 binary64. *)
Definition pyfloat : Type := spec_float.

Definition prec64 : Z := 53.
Definition emax64 : Z := 1024.

(** The five storage classes of SQLite.  TEXT is kept as its UTF-8 bytes
    (a Rocq [string] is a byte string), BLOB as raw bytes. *)
Inductive sqlval : Type :=
| SqlNull
| SqlInt (n : Z)
| SqlReal (x : pyfloat)
| SqlText (s : string)
| SqlBlob (b : list Byte.byte).

(** What Python code handles: the objects [sqlite3] hands out for the five
    storage classes, plus the booleans, lists and dictionaries the routes
    build for [jsonify]. *)
Inductive pyval : Type :=
| PNone
| PBool (b : bool)
| PInt (n : Z)
| PFloat (x : pyfloat)
| PStr (s : string)
| PBytes (b : list Byte.byte)
| PList (l : list pyval)
| PDict (items : list (string * pyval)).

(** Default adaptation of [sqlite3]: NULL is [None], INTEGER is [int], REAL
    is [float], TEXT is [str], BLOB is [bytes].  A [str] is given by its
    UTF-8 bytes.  TEXT that is not UTF-8 has no [str]: on such a value
    [sqlite3] raises OperationalError while the row is fetched.  That step
    is not modelled, the bytes are handed on; what is said of fetched rows
    is meant for tables whose TEXT decodes ([decodable] below). *)
Definition to_python (v : sqlval) : pyval :=
  match v with
  | SqlNull => PNone
  | SqlInt n => PInt n
  | SqlReal x => PFloat x
  | SqlText s => PStr s
  | SqlBlob b => PBytes b
  end.

(** Binding a Python object as a statement parameter, the other direction.
    Lists and dictionaries cannot be bound. *)
Definition bind_param (p : pyval) : option sqlval :=
  match p with
  | PNone => Some SqlNull
  | PBool b => Some (SqlInt (if b then 1 else 0))
  | PInt n => Some (SqlInt n)
  | PFloat x => Some (match x with S754_nan => SqlNull | _ => SqlReal x end)
  | PStr s => Some (SqlText s)
  | PBytes b => Some (SqlBlob b)
  | PList _ | PDict _ => None
  end.

(** ** SQLite's ordering of values

    [ORDER BY] and [=] compare by storage class first: NULL, then numbers
    (INTEGER and REAL together, by numeric value), then TEXT (byte-wise under
    the default BINARY collation), then BLOB (byte-wise). *)

Inductive numkey : Type :=
| NegInf
| Fin (q : Q)
| PosInf.

Inductive sortkey : Type :=
| KNull
| KNum (k : numkey)
| KText (s : string)
| KBlob (s : string).

Definition real_key (x : pyfloat) : sortkey :=
  match x with
  | S754_zero _ => KNum (Fin 0%Q)
  | S754_infinity true => KNum NegInf
  | S754_infinity false => KNum PosInf
  | S754_nan => KNull (* SQLite stores a NaN as NULL *)
  | S754_finite s m e =>
      KNum (Fin (inject_Z (cond_Zopp s (Zpos m)) * Qpower (2 # 1) e)%Q)
  end.

Definition sort_key (v : sqlval) : sortkey :=
  match v with
  | SqlNull => KNull
  | SqlInt n => KNum (Fin (inject_Z n))
  | SqlReal x => real_key x
  | SqlText s => KText s
  | SqlBlob b => KBlob (string_of_list_byte b)
  end.

Definition num_compare (a b : numkey) : comparison :=
  match a, b with
  | NegInf, NegInf => Eq
  | NegInf, _ => Lt
  | _, NegInf => Gt
  | PosInf, PosInf => Eq
  | PosInf, _ => Gt
  | _, PosInf => Lt
  | Fin p, Fin q => Qcompare p q
  end.

Definition key_compare (a b : sortkey) : comparison :=
  match a, b with
  | KNull, KNull => Eq
  | KNull, _ => Lt
  | _, KNull => Gt
  | KNum x, KNum y => num_compare x y
  | KNum _, _ => Lt
  | _, KNum _ => Gt
  | KText s, KText t => String.compare s t
  | KText _, _ => Lt
  | _, KText _ => Gt
  | KBlob s, KBlob t => String.compare s t
  end.

(** Not greater: the outcome of a comparison that [ORDER BY] accepts. *)
Definition not_gt (c : comparison) : Prop := c <> Gt.

Definition sql_compare (a b : sqlval) : comparison :=
  key_compare (sort_key a) (sort_key b).

Definition sql_leb (a b : sqlval) : bool :=
  match sql_compare a b with
  | Gt => false
  | _ => true
  end.

(** The comparison operator [a = b] of a WHERE clause: NULL on either side
    gives NULL, which does not select the row.  The operands are compared as
    they are stored.  When the column has a numeric affinity SQLite first
    turns a text operand that reads as a number into that number; this is
    not modelled.  It can only matter against a stored number, so [sql_eqb]
    is SQLite's comparison on a column that holds none ([no_numeric_date]
    below). *)
Definition sql_eqb (a b : sqlval) : bool :=
  match sort_key a, sort_key b with
  | KNull, _ | _, KNull => false
  | ka, kb => match key_compare ka kb with Eq => true | _ => false end
  end.

(** ** Rows, the database file and the ingestion script *)

(** One row of the [stocks] table, over the kind of cell at hand: a pandas
    cell in the frame read from the CSV, an SQLite value in the table. *)
Record row_of (cell : Type) : Type := mk_row {
  date : cell;
  open : cell;
  high : cell;
  low : cell;
  close : cell;
  adj_close : cell;
  volume : cell
}.
Arguments mk_row {cell}.
Arguments date {cell}.
Arguments open {cell}.
Arguments high {cell}.
Arguments low {cell}.
Arguments close {cell}.
Arguments adj_close {cell}.
Arguments volume {cell}.

Definition map_row {A B : Type} (f : A -> B) (r : row_of A) : row_of B :=
  mk_row (f (date r)) (f (open r)) (f (high r)) (f (low r)) (f (close r))
         (f (adj_close r)) (f (volume r)).

(** The seven cells of a row, in the order of the columns. *)
Definition cells {A : Type} (r : row_of A) : list A :=
  [date r; open r; high r; low r; close r; adj_close r; volume r].

Definition Row : Type := row_of sqlval.

(** *** UTF-8

    The well-formed byte sequences of the Unicode standard (table 3-7): what
    Python's strict decoder accepts, hence the TEXT values [sqlite3] hands
    out as [str], and the bytes a [str] of pandas encodes to. *)
Definition byte_in (lo hi : N) (a : ascii) : bool :=
  ((lo <=? N_of_ascii a) && (N_of_ascii a <=? hi))%N.

Definition continuation (a : ascii) : bool := byte_in 128 191 a.

Definition three_bytes (a b : ascii) : bool :=
  (byte_in 224 224 a && byte_in 160 191 b)
  || (byte_in 225 236 a && continuation b)
  || (byte_in 237 237 a && byte_in 128 159 b)
  || (byte_in 238 239 a && continuation b).

Definition four_bytes (a b : ascii) : bool :=
  (byte_in 240 240 a && byte_in 144 191 b)
  || (byte_in 241 243 a && continuation b)
  || (byte_in 244 244 a && byte_in 128 143 b).

Fixpoint utf8_valid (s : string) : bool :=
  match s with
  | EmptyString => true
  | String a s1 =>
      if byte_in 0 127 a then utf8_valid s1
      else
        match s1 with
        | EmptyString => false
        | String b s2 =>
            if byte_in 194 223 a then continuation b && utf8_valid s2
            else
              match s2 with
              | EmptyString => false
              | String c s3 =>
                  if three_bytes a b then continuation c && utf8_valid s3
                  else
                    match s3 with
                    | EmptyString => false
                    | String d s4 =>
                        four_bytes a b && continuation c && continuation d
                          && utf8_valid s4
                    end
              end
        end
  end.

(** A row [sqlite3] can fetch: each TEXT cell decodes. *)
Definition text_decodes (v : sqlval) : bool :=
  match v with
  | SqlText s => utf8_valid s
  | _ => true
  end.

Definition decodable (row : Row) : bool := forallb text_decodes (cells row).

(** A [date] column that holds no number: TEXT, NULL and BLOB only. *)
Definition is_number (v : sqlval) : bool :=
  match v with
  | SqlInt _ | SqlReal _ => true
  | _ => false
  end.

Definition no_numeric_date (rows : list Row) : bool :=
  forallb (fun r => negb (is_number (date r))) rows.

(** The first row whose stored date is the string [d], byte for byte. *)
Definition dated (d : string) (r : Row) : bool :=
  match date r with
  | SqlText s => String.eqb s d
  | _ => false
  end.

Definition first_dated (d : string) (rows : list Row) : option Row :=
  List.find (dated d) rows.

(** [pltr.db] as the routes and the script find it.  A missing file is not a
    separate case: both [sqlite3.connect] and SQLAlchemy create it empty,
    which is [Database ∅]. *)
Inductive db_file : Type :=
| Unopenable (msg : string)
    (* the file cannot be opened: connecting raises OperationalError *)
| NotADatabase (msg : string)
    (* connecting succeeds (SQLite opens lazily), every statement raises
       DatabaseError *)
| Database (tables : gmap string (list Row)).

(** Python exceptions, by class and message. *)
Inductive exc_class : Type :=
| OperationalError
| DatabaseError
| ProgrammingError
| TypeError
| ValueError
| OverflowError
| IndexError.

Record exn : Type := Exn { exc_type : exc_class; str_e : string }.

(** [isinstance(e, sqlite3.Error)] *)
Definition is_sqlite3_Error (e : exn) : bool :=
  match exc_type e with
  | OperationalError | DatabaseError | ProgrammingError => true
  | TypeError | ValueError | OverflowError | IndexError => false
  end.

Inductive outcome (A : Type) : Type :=
| Return (a : A)
| Raise (e : exn).
Arguments Return {A}.
Arguments Raise {A}.

(** *** data_ingestion.py *)

(** A cell of the frame [pd.read_csv] returns: an integer, a float64, a
    [str] (given by its UTF-8 bytes) or a bool.  A missing CSV field is the
    float NaN, also in a column of strings. *)
Inductive dfval : Type :=
| DfInt (n : Z)
| DfFloat (x : pyfloat)
| DfStr (s : string)
| DfBool (b : bool).

Definition DataFrame : Type := list (row_of dfval).

(** The integers an SQLite INTEGER holds (signed 64 bits), and those for
    which pandas needs a uint64 column. *)
Definition fits_int64 (n : Z) : bool := (- 2 ^ 63 <=? n) && (n <? 2 ^ 63).

Definition needs_uint64 (n : Z) : bool := (2 ^ 63 <=? n) && (n <? 2 ^ 64).

Definition integer_cell (p : Z -> bool) (c : dfval) : bool :=
  match c with
  | DfInt n => p n
  | _ => true
  end.

Definition integers (p : Z -> bool) (df : DataFrame) : bool :=
  forallb (fun r => forallb (integer_cell p) (cells r)) df.

Definition is_nan (x : pyfloat) : bool :=
  match x with
  | S754_nan => true
  | _ => false
  end.


(** The dtypes of the columns [pd.read_csv] builds that [to_sql] can write,
    and the cells a column of each holds. *)
Inductive dtype : Type :=
| int64
| float64
| object
| boolean.

Definition has_dtype (t : dtype) (c : dfval) : bool :=
  match t, c with
  | int64, DfInt n => fits_int64 n
  | float64, DfFloat _ => true
  | object, DfStr s => utf8_valid s
  | object, DfFloat x => is_nan x
  | boolean, DfBool _ => true
  | _, _ => false
  end.

Definition column_typed (col : row_of dfval -> dfval) (df : DataFrame) : bool :=
  existsb (fun t => forallb (fun r => has_dtype t (col r)) df)
    [int64; float64; object; boolean].

(** Every column of the frame has one dtype. *)
Definition typed_frame (df : DataFrame) : bool :=
  forallb (fun col => column_typed col df)
    [@date dfval; @open dfval; @high dfval; @low dfval; @close dfval;
     @adj_close dfval; @volume dfval].

(** The [date] column is a column of strings. *)
Definition text_dated (df : DataFrame) : bool :=
  forallb (fun r => has_dtype object (date r)) df.

(** What [DataFrame.to_sql] leaves in the table for a cell, the column
    having the type of its dtype (BIGINT, FLOAT, TEXT, BOOLEAN): NaN becomes
    NULL, and the FLOAT column gives -0.0 back as 0.0.  A column of mixed
    objects, whose cells the TEXT column would convert, is outside this
    model ([typed_frame]). *)
Definition insert_value (c : dfval) : sqlval :=
  match c with
  | DfInt n => SqlInt n
  | DfFloat S754_nan => SqlNull
  | DfFloat (S754_zero _) => SqlReal (S754_zero false)
  | DfFloat x => SqlReal x
  | DfStr s => SqlText s
  | DfBool b => SqlInt (if b then 1 else 0)
  end.

Inductive if_exists_mode : Type :=
| fail
| replace
| append.

(** The INSERT of all rows, in one transaction: an integer outside 64 bits
    cannot be bound, and then no row is added. *)
Definition executemany (df : DataFrame) (name : string)
    (tables : gmap string (list Row)) : outcome unit * gmap string (list Row) :=
  if integers fits_int64 df then
    (Return tt,
     <[name := (default [] (tables !! name) ++ map (map_row insert_value) df)%list]>
       tables)
  else
    (Raise (Exn OverflowError "Python int too large to convert to SQLite INTEGER"),
     tables).

(** [df.to_sql(name, con=engine, if_exists=..., index=False)] on an opened
    database, with the tables it leaves.  The column types are worked out
    first, and a uint64 column has none: nothing is touched.  Then, with
    [replace], the table is dropped and created again, outside any
    transaction; then the rows are inserted. *)
Definition to_sql (df : DataFrame) (name : string) (if_exists : if_exists_mode)
    (tables : gmap string (list Row)) : outcome unit * gmap string (list Row) :=
  if negb (integers (fun n => negb (needs_uint64 n)) df) then
    (Raise (Exn ValueError "Unsigned 64 bit integer datatype is not supported"),
     tables)
  else
    match tables !! name, if_exists with
    | Some _, fail =>
        (Raise (Exn ValueError ("Table '" ++ name ++ "' already exists.")), tables)
    | Some _, append => executemany df name tables
    | Some _, replace =>
        executemany df name (<[name := []]> (base.delete name tables))
    | None, _ => executemany df name (<[name := []]> tables)
    end.

(** The script, from the frame read at line 33 on: it writes the frame to
    the table [stocks] of [pltr.db] with [if_exists='replace'] (line 50).
    The result is how the run ends and the file it leaves.  The [print]
    calls do not touch the database and are left out; a run that stops with
    an exception before line 50 never reaches it. *)
Definition data_ingestion (df : DataFrame) (file : db_file)
    : outcome unit * db_file :=
  match file with
  | Unopenable msg => (Raise (Exn OperationalError msg), file)
  | NotADatabase msg => (Raise (Exn DatabaseError msg), file)
  | Database tables =>
      let (result, tables') := to_sql df "stocks" replace tables in
      (result, Database tables')
  end.



(** The table a reader finds in the file. *)
Definition stocks_table (file : db_file) : option (list Row) :=
  match file with
  | Database tables => tables !! "stocks"
  | _ => None
  end.

(** ** The Python builtins the routes rely on *)

(** Parsing a numeral out of a [str] or [bytes] object is the interpreter's
    business (white space, signs, underscores, exponents, non-ASCII digits);
    so is the wording of the exception a failed conversion carries.  Both
    are taken as given. *)
Class PyRuntime : Type := {
  float_of_str : string -> option pyfloat;
  float_of_bytes : list Byte.byte -> option pyfloat;
  int_of_str : string -> option Z;
  int_of_bytes : list Byte.byte -> option Z;
  (* [str(e)] of the exception raised by the named builtin on the value *)
  conversion_message : string -> pyval -> string
}.

(** Truncation towards zero of a finite binary64. *)
Definition trunc_finite (s : bool) (m : positive) (e : Z) : Z :=
  cond_Zopp s (if 0 <=? e then Zpos m * 2 ^ e else Zpos m / 2 ^ (- e)).

(** [str(n)] for an [int]. *)
Definition str_int (n : Z) : string :=
  NilZero.string_of_int (Z.to_int n).

Section Builtins.
Context `{rt : PyRuntime}.

(** [float(v)] *)
Definition py_float (v : pyval) : outcome pyfloat :=
  match v with
  | PNone | PList _ | PDict _ =>
      Raise (Exn TypeError (conversion_message "float" v))
  | PBool b => Return (binary_normalize prec64 emax64 (if b then 1 else 0) 0 false)
  | PInt n =>
      match binary_normalize prec64 emax64 n 0 false with
      | S754_infinity _ =>
          Raise (Exn OverflowError (conversion_message "float" v))
      | x => Return x
      end
  | PFloat x => Return x
  | PStr s =>
      match float_of_str s with
      | Some x => Return x
      | None => Raise (Exn ValueError (conversion_message "float" v))
      end
  | PBytes b =>
      match float_of_bytes b with
      | Some x => Return x
      | None => Raise (Exn ValueError (conversion_message "float" v))
      end
  end.

(** [int(v)] *)
Definition py_int (v : pyval) : outcome Z :=
  match v with
  | PNone | PList _ | PDict _ =>
      Raise (Exn TypeError (conversion_message "int" v))
  | PBool b => Return (if b then 1 else 0)
  | PInt n => Return n
  | PFloat (S754_zero _) => Return 0
  | PFloat (S754_finite s m e) => Return (trunc_finite s m e)
  | PFloat (S754_infinity _) =>
      Raise (Exn OverflowError (conversion_message "int" v))
  | PFloat S754_nan => Raise (Exn ValueError (conversion_message "int" v))
  | PStr s =>
      match int_of_str s with
      | Some n => Return n
      | None => Raise (Exn ValueError (conversion_message "int" v))
      end
  | PBytes b =>
      match int_of_bytes b with
      | Some n => Return n
      | None => Raise (Exn ValueError (conversion_message "int" v))
      end
  end.
End Builtins.

(** ** JSON documents and Flask responses *)

Inductive json : Type :=
| JNull
| JBool (b : bool)
| JInt (n : Z)
| JFloat (x : pyfloat)
| JStr (s : string)
| JArr (elems : list json)
| JObj (members : list (string * json)).

(** The JSON encoder of Flask: [int] and [float] stay apart, [bytes] has no
    encoding. *)
Fixpoint to_json (v : pyval) : option json :=
  match v with
  | PNone => Some JNull
  | PBool b => Some (JBool b)
  | PInt n => Some (JInt n)
  | PFloat x => Some (JFloat x)
  | PStr s => Some (JStr s)
  | PBytes _ => None
  | PList l =>
      option_map JArr
        ((fix elems (l : list pyval) : option (list json) :=
            match l with
            | [] => Some []
            | x :: l' =>
                match to_json x, elems l' with
                | Some j, Some js => Some (j :: js)
                | _, _ => None
                end
            end) l)
  | PDict items =>
      option_map JObj
        ((fix members (l : list (string * pyval)) : option (list (string * json)) :=
            match l with
            | [] => Some []
            | (k, x) :: l' =>
                match to_json x, members l' with
                | Some j, Some js => Some ((k, j) :: js)
                | _, _ => None
                end
            end) items)
  end.

(** What a view function returns: [jsonify(...), status]. *)
Record response : Type := Response { body : json; status : Z }.

(** Member of a JSON object by key. *)
Fixpoint member (key : string) (members : list (string * json)) : option json :=
  match members with
  | [] => None
  | (k, v) :: rest => if String.eqb k key then Some v else member key rest
  end.

Definition field (key : string) (j : json) : option json :=
  match j with
  | JObj members => member key members
  | _ => None
  end.

(** ** The world of a request *)

(** [datetime.now()]: a naive local date and time. *)
Record datetime : Type := mk_datetime {
  year : Z;
  month : Z;
  day : Z;
  hour : Z;
  minute : Z;
  second : Z;
  microsecond : Z
}.

(** A connection is named by the position of its opening in the trace. *)
Definition connection : Type := nat.

Inductive event : Type :=
| Connect (c : connection)
| Execute (c : connection) (sql : string) (parameters : list pyval)
| Close (c : connection).

Record world : Type := mk_world {
  db : db_file;          (* the file pltr.db *)
  clock : datetime;      (* what datetime.now() reads *)
  trace : list event     (* what has been done to the store, oldest first *)
}.

Definition log (e : event) (w : world) : world :=
  mk_world (db w) (clock w) (trace w ++ [e])%list.

(** Python statements: they read and change the world, and either yield a
    value or raise. *)
Definition py (A : Type) : Type := world -> outcome A * world.

Definition ret {A : Type} (a : A) : py A := fun w => (Return a, w).

Definition raise {A : Type} (e : exn) : py A := fun w => (Raise e, w).

Definition bind {A B : Type} (m : py A) (k : A -> py B) : py B :=
  fun w =>
    match m w with
    | (Return a, w') => k a w'
    | (Raise e, w') => (Raise e, w')
    end.

Notation "x <- m ;; k" := (bind m (fun x => k))
  (at level 100, m at next level, right associativity).
Notation "m ;;; k" := (bind m (fun _ => k))
  (at level 100, right associativity).

(** A pure computation that may raise, as a statement. *)
Definition lift {A : Type} (o : outcome A) : py A := fun w => (o, w).

(** [try: body except Exception as e: handler(e)] *)
Definition try_except {A : Type} (body : py A) (handler : exn -> py A) : py A :=
  fun w =>
    match body w with
    | (Return a, w') => (Return a, w')
    | (Raise e, w') => handler e w'
    end.

(** *** The sqlite3 module *)

(** Is the connection open at the end of the trace? *)
Definition is_open (c : connection) (t : list event) : bool :=
  fold_left
    (fun st e =>
       match e with
       | Connect c' => if Nat.eqb c c' then true else st
       | Close c' => if Nat.eqb c c' then false else st
       | Execute _ _ _ => st
       end) t false.

(** [sqlite3.connect('pltr.db')] *)
Definition sqlite3_connect : py connection :=
  fun w =>
    match db w with
    | Unopenable msg => (Raise (Exn OperationalError msg), w)
    | _ => let c := length (trace w) in (Return c, log (Connect c) w)
    end.

(** [conn.close()] *)
Definition conn_close (c : connection) : py unit :=
  fun w => (Return tt, log (Close c) w).

(** Rows in the order of their [date] column.  SQLite promises no order
    among rows with equal dates; its sorter hands them out in the order of
    storage, which is what this stable insertion sort does. *)
Definition date_le (r1 r2 : Row) : Prop := Is_true (sql_leb (date r1) (date r2)).

Fixpoint insert_by_date (r : Row) (sorted : list Row) : list Row :=
  match sorted with
  | [] => [r]
  | x :: rest =>
      if sql_leb (date r) (date x) then r :: x :: rest
      else x :: insert_by_date r rest
  end.

Fixpoint order_by_date (rows : list Row) : list Row :=
  match rows with
  | [] => []
  | r :: rest => insert_by_date r (order_by_date rest)
  end.

Definition where_date_eq (p : sqlval) (rows : list Row) : list Row :=
  List.filter (fun r => sql_eqb (date r) p) rows.

Definition select_all_order_by_date : string := "SELECT * FROM stocks ORDER BY date".
Definition select_where_date : string := "SELECT * FROM stocks WHERE date = ?".

Definition binding_fault (want have : nat) : exn :=
  Exn ProgrammingError
    ("Incorrect number of bindings supplied. The current statement uses "
       ++ str_int (Z.of_nat want) ++ ", and there are "
       ++ str_int (Z.of_nat have) ++ " supplied.").

(** The SQL engine, for the two statements [routes.py] issues.  The statement
    is prepared from its text alone (the table must exist), then the
    parameters are bound to its placeholders, then it is run.  Any other
    text is outside this model and is refused.  [date = ?] compares the
    stored value with the bound one as they are ([sql_eqb]). *)
Definition run_statement (sql : string) (parameters : list pyval)
    (tables : gmap string (list Row)) : outcome (list Row) :=
  if String.eqb sql select_all_order_by_date then
    match tables !! "stocks" with
    | None => Raise (Exn OperationalError "no such table: stocks")
    | Some rows =>
        match parameters with
        | [] => Return (order_by_date rows)
        | _ => Raise (binding_fault 0 (length parameters))
        end
    end
  else if String.eqb sql select_where_date then
    match tables !! "stocks" with
    | None => Raise (Exn OperationalError "no such table: stocks")
    | Some rows =>
        match parameters with
        | [p] =>
            match bind_param p with
            | Some v => Return (where_date_eq v rows)
            | None =>
                Raise (Exn ProgrammingError
                         "Error binding parameter 1: type is not supported")
            end
        | _ => Raise (binding_fault 1 (length parameters))
        end
    end
  else Raise (Exn OperationalError ("not modelled: " ++ sql)).

(** [conn.execute(sql, parameters)]; the cursor is the list of rows still to
    be fetched. *)
Definition conn_execute (c : connection) (sql : string)
    (parameters : list pyval) : py (list Row) :=
  fun w =>
    let w' := log (Execute c sql parameters) w in
    if negb (is_open c (trace w)) then
      (Raise (Exn ProgrammingError "Cannot operate on a closed database."), w')
    else
      match db w with
      | Unopenable msg => (Raise (Exn OperationalError msg), w')
      | NotADatabase msg => (Raise (Exn DatabaseError msg), w')
      | Database tables => (run_statement sql parameters tables, w')
      end.

(** Fetching, for rows whose TEXT decodes. *)
Definition fetchall (cursor : list Row) : list Row := cursor.

Definition fetchone (cursor : list Row) : option Row := head cursor.

(** [row[key]] on a [sqlite3.Row] of the [stocks] table. *)
Definition getitem (row : Row) (key : string) : py pyval :=
  if String.eqb key "date" then ret (to_python (date row))
  else if String.eqb key "open" then ret (to_python (open row))
  else if String.eqb key "high" then ret (to_python (high row))
  else if String.eqb key "low" then ret (to_python (low row))
  else if String.eqb key "close" then ret (to_python (close row))
  else if String.eqb key "adj_close" then ret (to_python (adj_close row))
  else if String.eqb key "volume" then ret (to_python (volume row))
  else raise (Exn IndexError "No item with that key").

(** *** Flask and datetime *)

(** [jsonify(v)] *)
Definition jsonify (v : pyval) : py json :=
  match to_json v with
  | Some j => ret j
  | None => raise (Exn TypeError "Object of type bytes is not JSON serializable")
  end.

(** C's [%0<width>d]. *)
Definition zero_padded (width : nat) (n : Z) : string :=
  if n <? 0 then
    let s := str_int (- n) in
    "-" ++ string_of_list_ascii (repeat "0"%char (width - 1 - String.length s)) ++ s
  else
    let s := str_int n in
    string_of_list_ascii (repeat "0"%char (width - String.length s)) ++ s.

(** [dt.isoformat()] of a naive datetime: [YYYY-MM-DDTHH:MM:SS], followed by
    [.ffffff] when the microsecond is not zero. *)
Definition isoformat (dt : datetime) : string :=
  zero_padded 4 (year dt) ++ "-" ++ zero_padded 2 (month dt) ++ "-"
    ++ zero_padded 2 (day dt) ++ "T" ++ zero_padded 2 (hour dt) ++ ":"
    ++ zero_padded 2 (minute dt) ++ ":" ++ zero_padded 2 (second dt)
    ++ (if microsecond dt =? 0 then EmptyString else "." ++ zero_padded 6 (microsecond dt)).

Definition datetime_now : py datetime := fun w => (Return (clock w), w).

(** ** routes.py *)

(** [health_check] (lines 153-156) *)
Definition health_check : py response :=
  now <- datetime_now ;;
  j <- jsonify (PDict [("status", PStr "healthy");
                       ("timestamp", PStr (isoformat now))]) ;;
  ret (Response j 200).

Section Routes.
Context `{rt : PyRuntime}.

(** [get_db_connection] (lines 41-43).  Setting [row_factory] makes the
    rows answer to column names, which is what [getitem] does. *)
Definition get_db_connection : py connection :=
  conn <- sqlite3_connect ;;
  ret conn.

(** [float(row[key])] and [int(row[key])] *)
Definition float_item (row : Row) (key : string) : py pyval :=
  v <- getitem row key ;;
  x <- lift (py_float v) ;;
  ret (PFloat x).

Definition int_item (row : Row) (key : string) : py pyval :=
  v <- getitem row key ;;
  n <- lift (py_int v) ;;
  ret (PInt n).

(** The dictionary display of lines 95-103, and again of lines 220-228:
    its items are evaluated from top to bottom. *)
Definition stock_record (row : Row) : py pyval :=
  v_date <- getitem row "date" ;;
  v_open <- float_item row "open" ;;
  v_high <- float_item row "high" ;;
  v_low <- float_item row "low" ;;
  v_close <- float_item row "close" ;;
  v_adj_close <- float_item row "adj_close" ;;
  v_volume <- int_item row "volume" ;;
  ret (PDict [("date", v_date); ("open", v_open); ("high", v_high);
              ("low", v_low); ("close", v_close);
              ("adj_close", v_adj_close); ("volume", v_volume)]).

(** The loop of lines 94-104, started with the list built so far. *)
Fixpoint for_row_in (stocks_data : list Row) (stocks_list : list pyval)
    : py (list pyval) :=
  match stocks_data with
  | [] => ret stocks_list
  | row :: rest =>
      record <- stock_record row ;;
      for_row_in rest (stocks_list ++ [record])%list
  end.

(** [get_stocks] (lines 82-131) *)
Definition get_stocks : py response :=
  try_except
    (conn <- get_db_connection ;;
     let query := "SELECT * FROM stocks ORDER BY date" in
     cursor <- conn_execute conn query [] ;;
     let stocks_data := fetchall cursor in
     stocks_list <- for_row_in stocks_data [] ;;
     conn_close conn ;;;
     j <- jsonify
            (PDict [("success", PBool true);
                    ("data", PList stocks_list);
                    ("count", PInt (Z.of_nat (length stocks_list)));
                    ("message",
                     PStr ("Successfully retrieved "
                             ++ str_int (Z.of_nat (length stocks_list))
                             ++ " stock records"))]) ;;
     ret (Response j 200))
    (fun e =>
       if is_sqlite3_Error e then
         j <- jsonify (PDict [("success", PBool false);
                              ("error", PStr "Database error");
                              ("message", PStr (str_e e))]) ;;
         ret (Response j 500)
       else
         j <- jsonify (PDict [("success", PBool false);
                              ("error", PStr "Internal server error");
                              ("message", PStr (str_e e))]) ;;
         ret (Response j 500)).

(** [get_stocks_by_date] (lines 205-259); the argument is the path
    segment as Flask hands it over. *)
Definition get_stocks_by_date (date : string) : py response :=
  try_except
    (conn <- get_db_connection ;;
     let query := "SELECT * FROM stocks WHERE date = ?" in
     cursor <- conn_execute conn query [PStr date] ;;
     let stocks_date := fetchone cursor in
     conn_close conn ;;;
     match stocks_date with
     | Some row =>
         record <- stock_record row ;;
         j <- jsonify
                (PDict [("success", PBool true);
                        ("data", record);
                        ("message",
                         PStr ("Successfully retrieved stock data for "
                                 ++ date))]) ;;
         ret (Response j 200)
     | None =>
         j <- jsonify
                (PDict [("success", PBool false);
                        ("error", PStr "Not found");
                        ("message",
                         PStr ("No stock data found for date " ++ date))]) ;;
         ret (Response j 404)
     end)
    (fun e =>
       if is_sqlite3_Error e then
         j <- jsonify (PDict [("success", PBool false);
                              ("error", PStr "Database Error");
                              ("message", PStr (str_e e))]) ;;
         ret (Response j 500)
       else
         j <- jsonify (PDict [("success", PBool false);
                              ("error", PStr "Internal Server Error");
                              ("message", PStr (str_e e))]) ;;
         ret (Response j 500)).
End Routes.

(** ** A runtime to run the routes on sample tables

    It reads plain numerals of one to eighteen ASCII digits, on which every
    CPython agrees, and nothing else; its messages are placeholders, no
    statement below depends on their wording. *)

Definition digit_value (c : ascii) : option Z :=
  let n := Z.of_N (N_of_ascii c) in
  if (48 <=? n) && (n <=? 57) then Some (n - 48) else None.

Fixpoint digits_value (s : string) (acc : Z) : option Z :=
  match s with
  | EmptyString => Some acc
  | String c s' =>
      match digit_value c with
      | Some d => digits_value s' (10 * acc + d)
      | None => None
      end
  end.

Definition plain_numeral (s : string) : option Z :=
  if (1 <=? String.length s)%nat && (String.length s <=? 18)%nat
  then digits_value s 0 else None.

Definition plain_runtime : PyRuntime := {|
  float_of_str s :=
    option_map (fun n => binary_normalize prec64 emax64 n 0 false) (plain_numeral s);
  float_of_bytes b :=
    option_map (fun n => binary_normalize prec64 emax64 n 0 false)
      (plain_numeral (string_of_list_byte b));
  int_of_str := plain_numeral;
  int_of_bytes b := plain_numeral (string_of_list_byte b);
  conversion_message builtin v := builtin ++ "() cannot convert its argument"
|}.

(** ** Vocabulary of the statements *)

Section Vocabulary.
Context `{rt : PyRuntime}.

(** Does [float()], resp. [int()], accept what the cell holds? *)
Definition float_accepts (v : sqlval) : bool :=
  match py_float (to_python v) with
  | Return _ => true
  | Raise _ => false
  end.

Definition int_accepts (v : sqlval) : bool :=
  match py_int (to_python v) with
  | Return _ => true
  | Raise _ => false
  end.

Definition numbers_ok (row : Row) : bool :=
  float_accepts (open row) && float_accepts (high row)
    && float_accepts (low row) && float_accepts (close row)
    && float_accepts (adj_close row) && int_accepts (volume row).

Definition is_blob (v : sqlval) : bool :=
  match v with
  | SqlBlob _ => true
  | _ => false
  end.

(** A row the routes can serve: its date has a JSON encoding and its six
    numeric cells convert. *)
Definition servable (row : Row) : bool :=
  negb (is_blob (date row)) && numbers_ok row.

(** The converted value of an accepted cell. *)
Definition float_value (v : sqlval) : pyfloat :=
  match py_float (to_python v) with
  | Return x => x
  | Raise _ => S754_nan
  end.

Definition int_value (v : sqlval) : Z :=
  match py_int (to_python v) with
  | Return n => n
  | Raise _ => 0
  end.

(** The dictionary a servable row is turned into, and its JSON encoding. *)
Definition record_dict (row : Row) : pyval :=
  PDict [("date", to_python (date row));
         ("open", PFloat (float_value (open row)));
         ("high", PFloat (float_value (high row)));
         ("low", PFloat (float_value (low row)));
         ("close", PFloat (float_value (close row)));
         ("adj_close", PFloat (float_value (adj_close row)));
         ("volume", PInt (int_value (volume row)))].

Definition date_json (v : sqlval) : json :=
  match v with
  | SqlNull | SqlBlob _ => JNull
  | SqlInt n => JInt n
  | SqlReal x => JFloat x
  | SqlText s => JStr s
  end.

Definition record_json (row : Row) : json :=
  JObj [("date", date_json (date row));
        ("open", JFloat (float_value (open row)));
        ("high", JFloat (float_value (high row)));
        ("low", JFloat (float_value (low row)));
        ("close", JFloat (float_value (close row)));
        ("adj_close", JFloat (float_value (adj_close row)));
        ("volume", JInt (int_value (volume row)))].
End Vocabulary.

(** The body of every error response. *)
Definition error_body (label message : string) : json :=
  JObj [("success", JBool false); ("error", JStr label); ("message", JStr message)].

(** The world as far as the date route can tell: the database file. *)
Definition with_table (w : world) (rows : list Row) : Prop :=
  exists tables, db w = Database tables /\ tables !! "stocks" = Some rows.

(** The world after the request opened its connection and ran its
    statement, and after it closed the connection as well. *)
Definition after_query (sql : string) (ps : list pyval) (w : world) : world :=
  log (Execute (length (trace w)) sql ps) (log (Connect (length (trace w))) w).

Definition after_close (sql : string) (ps : list pyval) (w : world) : world :=
  log (Close (length (trace w))) (after_query sql ps w).

(** The bodies of the successful and the not-found responses. *)
Definition stocks_body (data : list json) : json :=
  JObj [("success", JBool true);
        ("data", JArr data);
        ("count", JInt (Z.of_nat (length data)));
        ("message",
         JStr ("Successfully retrieved " ++ str_int (Z.of_nat (length data))
                 ++ " stock records"))].

Definition found_body (d : string) (rec : json) : json :=
  JObj [("success", JBool true);
        ("data", rec);
        ("message", JStr ("Successfully retrieved stock data for " ++ d))].

Definition not_found_body (d : string) : json :=
  error_body "Not found" ("No stock data found for date " ++ d).

Section Coercion.
Context `{rt : PyRuntime}.

(** [rec] carries the six numbers of [row] as [float()] and [int()] return
    them: prices as JSON floating point numbers, the volume as a JSON
    integer. *)
Definition coerced_from (row : Row) (rec : json) : Prop :=
  exists o h l c a v,
    py_float (to_python (open row)) = Return o
    /\ py_float (to_python (high row)) = Return h
    /\ py_float (to_python (low row)) = Return l
    /\ py_float (to_python (close row)) = Return c
    /\ py_float (to_python (adj_close row)) = Return a
    /\ py_int (to_python (volume row)) = Return v
    /\ field "open" rec = Some (JFloat o)
    /\ field "high" rec = Some (JFloat h)
    /\ field "low" rec = Some (JFloat l)
    /\ field "close" rec = Some (JFloat c)
    /\ field "adj_close" rec = Some (JFloat a)
    /\ field "volume" rec = Some (JInt v).
End Coercion.

(** *** Shape of an ISO-8601 date and time *)

Inductive shape : Type :=
| Digit
| Lit (c : ascii).

Definition is_digit (c : ascii) : bool :=
  match digit_value c with
  | Some _ => true
  | None => false
  end.

Fixpoint has_shape (p : list shape) (s : string) : bool :=
  match p, s with
  | [], EmptyString => true
  | Digit :: p', String c s' => is_digit c && has_shape p' s'
  | Lit l :: p', String c s' => Ascii.eqb l c && has_shape p' s'
  | _, _ => false
  end.

Definition digits (n : nat) : list shape := repeat Digit n.

(** [YYYY-MM-DDTHH:MM:SS] *)
Definition to_the_second : list shape :=
  (digits 4 ++ [Lit "-"%char] ++ digits 2 ++ [Lit "-"%char] ++ digits 2
     ++ [Lit "T"%char] ++ digits 2 ++ [Lit ":"%char] ++ digits 2
     ++ [Lit ":"%char] ++ digits 2)%list.

(** [.ffffff] *)
Definition fraction : list shape := (Lit "."%char :: digits 6)%list.

Definition iso8601 (s : string) : bool :=
  has_shape to_the_second s || has_shape (to_the_second ++ fraction)%list s.

(** The invariant of Python's [datetime] objects. *)
Definition valid_datetime (dt : datetime) : Prop :=
  1 <= year dt <= 9999 /\ 1 <= month dt <= 12 /\ 1 <= day dt <= 31
  /\ 0 <= hour dt <= 23 /\ 0 <= minute dt <= 59 /\ 0 <= second dt <= 59
  /\ 0 <= microsecond dt <= 999999.

(** [f] holds of the [n] integers from [z] on. *)
Fixpoint all_from (n : nat) (z : Z) (f : Z -> bool) : bool :=
  match n with
  | O => true
  | S k => if f z then all_from k (z + 1) f else false
  end.

(** ** Sample data

    The three trading days of the spec's example, as the CSV gives them; the
    first row has its numbers as text, the last lacks its opening price. *)

Definition real (n : Z) : pyfloat := binary_normalize prec64 emax64 n 0 false.

Definition three_days : DataFrame :=
  [ mk_row (DfStr "2020-09-30") (DfFloat (real 10)) (DfFloat (real 11))
      (DfFloat (real 9)) (DfFloat (real 9)) (DfFloat (real 9)) (DfInt 338584400);
    mk_row (DfStr "2020-10-01") (DfFloat (real 9)) (DfFloat (real 10))
      (DfFloat (real 9)) (DfFloat (real 9)) (DfFloat (real 9)) (DfInt 124297600);
    mk_row (DfStr "2020-10-02") (DfFloat (real 9)) (DfFloat (real 9))
      (DfFloat (real 8)) (DfFloat (real 9)) (DfFloat (real 9)) (DfInt 55018300) ].

Definition one_day : DataFrame :=
  [ mk_row (DfStr "2020-10-05") (DfFloat (real 9)) (DfFloat (real 9))
      (DfFloat (real 9)) (DfFloat (real 9)) (DfFloat (real 9)) (DfInt 36316900) ].


Definition day_one : Row :=
  mk_row (SqlText "2020-09-30") (SqlText "10") (SqlText "11") (SqlText "9")
    (SqlText "9") (SqlText "9") (SqlText "338584400").

Definition day_two : Row :=
  mk_row (SqlText "2020-10-01") (SqlReal (real 9)) (SqlReal (real 10))
    (SqlReal (real 9)) (SqlReal (real 9)) (SqlReal (real 9)) (SqlInt 124297600).

Definition day_two_again : Row :=
  mk_row (SqlText "2020-10-01") (SqlReal (real 7)) (SqlReal (real 8))
    (SqlReal (real 7)) (SqlReal (real 7)) (SqlReal (real 7)) (SqlInt 1).

Definition day_two_no_open : Row :=
  mk_row (SqlText "2020-10-01") SqlNull (SqlReal (real 10)) (SqlReal (real 9))
    (SqlReal (real 9)) (SqlReal (real 9)) (SqlInt 124297600).

(** A CSV row with an empty [open] field arrives as NaN and is stored as
    NULL. *)
Definition day_three_no_open : Row :=
  map_row insert_value
    (mk_row (DfStr "2020-10-02") (DfFloat S754_nan) (DfFloat (real 9))
       (DfFloat (real 8)) (DfFloat (real 9)) (DfFloat (real 9)) (DfInt 55018300)).


Definition half_past_ten : datetime := mk_datetime 2024 1 15 10 30 45 123456.

(** A fresh request against a database whose [stocks] table holds [rows]. *)
Definition serving (rows : list Row) : world :=
  mk_world (Database {[ "stocks" := rows ]}) half_past_ten [].

(** A fresh request against a file that is not a database. *)
Definition garbled : world :=
  mk_world (NotADatabase "file is not a database") half_past_ten [].

(** ** Well-typed stock records

    A row as the CSV of line 31 has it when nothing is missing: pandas reads
    the date as a string, the five prices as float64 and the volume as
    int64. *)
Record StockRecord : Type := mk_record {
  sr_date : string;
  sr_open : pyfloat;
  sr_high : pyfloat;
  sr_low : pyfloat;
  sr_close : pyfloat;
  sr_adj_close : pyfloat;
  sr_volume : Z
}.

Definition frame_row (s : StockRecord) : row_of dfval :=
  mk_row (DfStr (sr_date s)) (DfFloat (sr_open s)) (DfFloat (sr_high s))
    (DfFloat (sr_low s)) (DfFloat (sr_close s)) (DfFloat (sr_adj_close s))
    (DfInt (sr_volume s)).

(** The record as the docstrings of the routes show it (lines 68-76). *)
Definition stock_json (s : StockRecord) : json :=
  JObj [("date", JStr (sr_date s));
        ("open", JFloat (sr_open s));
        ("high", JFloat (sr_high s));
        ("low", JFloat (sr_low s));
        ("close", JFloat (sr_close s));
        ("adj_close", JFloat (sr_adj_close s));
        ("volume", JInt (sr_volume s))].

(** A price the table gives back as it is: neither the NaN pandas uses for
    a missing field nor the negative zero. *)
Definition kept (x : pyfloat) : bool :=
  match x with
  | S754_nan | S754_zero true => false
  | _ => true
  end.

(** A record the table holds and gives back unchanged. *)
Definition storable (s : StockRecord) : bool :=
  utf8_valid (sr_date s) && fits_int64 (sr_volume s)
    && kept (sr_open s) && kept (sr_high s) && kept (sr_low s)
    && kept (sr_close s) && kept (sr_adj_close s).

(** A numeric cell of the frame is missing. *)
Definition missing (c : dfval) : Prop := c = DfFloat S754_nan.

Definition lacks_a_number (r : row_of dfval) : Prop :=
  missing (open r) \/ missing (high r) \/ missing (low r) \/ missing (close r)
  \/ missing (adj_close r) \/ missing (volume r).

(** The table the ingestor writes for a frame, and a request against the
    file it leaves. *)
Definition ingested (df : DataFrame) : list Row := map (map_row insert_value) df.

Definition request_after_ingestion (df : DataFrame)
    (tables : gmap string (list Row)) (now : datetime) (t : list event) : world :=
  mk_world (snd (data_ingestion df (Database tables))) now t.

(** Dates written [YYYY-MM-DD], and the order of the calendar. *)
Definition ymd (y m d : Z) : string :=
  zero_padded 4 y ++ "-" ++ zero_padded 2 m ++ "-" ++ zero_padded 2 d.

Definition calendar_compare (y1 m1 d1 y2 m2 d2 : Z) : comparison :=
  match y1 ?= y2 with
  | Eq => match m1 ?= m2 with
          | Eq => d1 ?= d2
          | c => c
          end
  | c => c
  end.

Definition valid_ymd (y m d : Z) : Prop :=
  1 <= y <= 9999 /\ 1 <= m <= 12 /\ 1 <= d <= 31.

(** The padded numeral of [k] comes before that of [k + 1]. *)
Definition steps_up (width : nat) (k : Z) : bool :=
  match String.compare (zero_padded width k) (zero_padded width (k + 1)) with
  | Lt => true
  | _ => false
  end.

(** The events one request adds when it runs its statement and closes. *)
Definition one_query (c : connection) (sql : string) (ps : list pyval)
    : list event :=
  [Connect c; Execute c sql ps; Close c].

Definition sample_records : list StockRecord :=
  [ mk_record "2020-10-01" (real 9) (real 10) (real 9) (real 9) (real 9) 124297600;
    mk_record "2020-09-30" (real 10) (real 11) (real 9) (real 9) (real 9) 338584400;
    mk_record "2020-10-02" (real 9) (real 9) (real 8) (real 9) (real 9) 55018300 ].

(** * Properties *)

(** ** The ordering of [ORDER BY date] *)

Lemma ascii_compare_le_trans (a b c : ascii) :
  not_gt (Ascii.compare a b) -> not_gt (Ascii.compare b c) ->
  not_gt (Ascii.compare a c).
Proof.
  unfold not_gt, Ascii.compare. rewrite !N.compare_le_iff. lia.
Qed.

Lemma ascii_compare_lt_le (a b c : ascii) :
  Ascii.compare a b = Lt -> not_gt (Ascii.compare b c) ->
  Ascii.compare a c = Lt.
Proof.
  unfold not_gt, Ascii.compare. rewrite N.compare_le_iff, !N.compare_lt_iff. lia.
Qed.

Lemma string_compare_le_trans (s t u : string) :
  not_gt (String.compare s t) -> not_gt (String.compare t u) ->
  not_gt (String.compare s u).
Proof.
  revert t u. induction s as [|a s IH]; intros [|b t] [|c u]; simpl;
    unfold not_gt in *; try congruence.
  destruct (Ascii.compare a b) eqn:Eab; try congruence.
  - apply Ascii.compare_eq_iff in Eab. subst b.
    destruct (Ascii.compare a c) eqn:Eac; try congruence. apply IH.
  - intros _ Hbc.
    assert (Hle : not_gt (Ascii.compare b c))
      by (unfold not_gt; destruct (Ascii.compare b c); congruence).
    rewrite (ascii_compare_lt_le a b c Eab Hle). congruence.
Qed.

Lemma string_compare_refl (s : string) : String.compare s s = Eq.
Proof.
  pose proof (String.compare_antisym s s) as H.
  destruct (String.compare s s); simpl in H; congruence.
Qed.

Lemma num_compare_antisym (a b : numkey) :
  num_compare b a = CompOpp (num_compare a b).
Proof.
  destruct a, b; simpl; try reflexivity. symmetry. apply Qcompare_antisym.
Qed.

Lemma num_compare_le_trans (a b c : numkey) :
  not_gt (num_compare a b) -> not_gt (num_compare b c) ->
  not_gt (num_compare a c).
Proof.
  unfold not_gt. destruct a, b, c; simpl; try congruence.
  rewrite <- !Qle_alt. apply Qle_trans.
Qed.

Lemma key_compare_antisym (a b : sortkey) :
  key_compare b a = CompOpp (key_compare a b).
Proof.
  destruct a, b; simpl; try reflexivity.
  - apply num_compare_antisym.
  - apply String.compare_antisym.
  - apply String.compare_antisym.
Qed.

Lemma key_compare_le_trans (a b c : sortkey) :
  not_gt (key_compare a b) -> not_gt (key_compare b c) ->
  not_gt (key_compare a c).
Proof.
  destruct a, b, c; simpl; unfold not_gt; try congruence.
  - apply num_compare_le_trans.
  - apply string_compare_le_trans.
  - apply string_compare_le_trans.
Qed.

Lemma sql_leb_not_gt (a b : sqlval) :
  Is_true (sql_leb a b) <-> not_gt (sql_compare a b).
Proof.
  unfold sql_leb, not_gt. destruct (sql_compare a b); simpl; intuition congruence.
Qed.

#[global] Instance date_le_total : Total date_le.
Proof.
  intros r1 r2. unfold date_le. rewrite !sql_leb_not_gt.
  unfold not_gt, sql_compare.
  rewrite (key_compare_antisym (sort_key (date r1)) (sort_key (date r2))).
  destruct (key_compare (sort_key (date r1)) (sort_key (date r2))); simpl;
    [left | left | right]; congruence.
Qed.

#[global] Instance date_le_trans : Transitive date_le.
Proof.
  intros r1 r2 r3. unfold date_le. rewrite !sql_leb_not_gt.
  apply key_compare_le_trans.
Qed.

(** On dates stored as TEXT the order is the byte-wise order of strings. *)
Lemma date_le_text (r1 r2 : Row) (s1 s2 : string) :
  date r1 = SqlText s1 -> date r2 = SqlText s2 ->
  (date_le r1 r2 <-> String.leb s1 s2 = true).
Proof.
  intros H1 H2. unfold date_le, sql_leb, sql_compare, String.leb.
  rewrite H1, H2. simpl. destruct (String.compare s1 s2); simpl; intuition congruence.
Qed.

Lemma insert_by_date_perm (r : Row) (sorted : list Row) :
  insert_by_date r sorted ≡ₚ r :: sorted.
Proof.
  induction sorted as [|x rest IH]; [reflexivity|]. cbn [insert_by_date].
  destruct (sql_leb (date r) (date x)); [reflexivity|].
  rewrite IH. apply perm_swap.
Qed.

Lemma insert_by_date_sorted (r : Row) (sorted : list Row) :
  StronglySorted date_le sorted -> StronglySorted date_le (insert_by_date r sorted).
Proof.
  induction 1 as [|x rest Hrest IH Hx]; cbn [insert_by_date].
  - repeat constructor.
  - destruct (sql_leb (date r) (date x)) eqn:E.
    + assert (Hrx : date_le r x) by (unfold date_le; now rewrite E).
      constructor; [now constructor|]. constructor; [exact Hrx|].
      eapply List.Forall_impl; [|exact Hx].
      intros y Hxy. now transitivity x.
    + assert (Hxr : date_le x r).
      { destruct (date_le_total r x) as [H|H]; [|exact H].
        unfold date_le in H. now rewrite E in H. }
      constructor; [exact IH|].
      apply (Permutation_Forall (Permutation_sym (insert_by_date_perm r rest))).
      now constructor.
Qed.

Lemma order_by_date_sorted (rows : list Row) :
  StronglySorted date_le (order_by_date rows).
Proof.
  induction rows as [|r rows IH]; [constructor|].
  cbn [order_by_date]. now apply insert_by_date_sorted.
Qed.

Lemma order_by_date_perm (rows : list Row) : order_by_date rows ≡ₚ rows.
Proof.
  induction rows as [|r rows IH]; [reflexivity|].
  cbn [order_by_date]. now rewrite insert_by_date_perm, IH.
Qed.

(** Rows already in order, with equal dates or not, stay as stored. *)
Lemma order_by_date_stable (rows : list Row) :
  StronglySorted date_le rows -> order_by_date rows = rows.
Proof.
  induction 1 as [|r rows Hrows IH Hr]; [reflexivity|].
  cbn [order_by_date]. rewrite IH. destruct rows as [|x rest]; [reflexivity|].
  cbn [insert_by_date]. apply List.Forall_inv in Hr. unfold date_le in Hr.
  now destruct (sql_leb (date r) (date x)).
Qed.

(** [date = ?] with a string bound selects the rows whose date is that very
    text. *)
Lemma sql_eqb_text (v : sqlval) (d : string) :
  sql_eqb v (SqlText d) = true <-> v = SqlText d.
Proof.
  split.
  - destruct v as [|n|x|s|b]; simpl; try discriminate.
    + destruct x as [?|[]| |? ? ?]; simpl; discriminate.
    + unfold sql_eqb; simpl. destruct (String.compare s d) eqn:E; try discriminate.
      apply String.compare_eq_iff in E. now subst.
  - intros ->. unfold sql_eqb; simpl.
    now rewrite string_compare_refl.
Qed.

(** ** The store as the routes use it *)

Lemma is_open_after_connect (t : list event) :
  is_open (length t) (t ++ [Connect (length t)]) = true.
Proof.
  unfold is_open. rewrite fold_left_app. simpl. now rewrite Nat.eqb_refl.
Qed.


Lemma is_open_after_close (c : connection) (t : list event) :
  is_open c (t ++ [Close c]) = false.
Proof.
  unfold is_open. rewrite fold_left_app. simpl. now rewrite Nat.eqb_refl.
Qed.

(** ** Conversions and the JSON encoder *)

Ltac raised :=
  let H := fresh in
  intros H; first [discriminate H | injection H as <-; reflexivity].

Lemma to_json_cons (v : pyval) (l : list pyval) :
  to_json (PList (v :: l))
  = match to_json v, to_json (PList l) with
    | Some j, Some (JArr js) => Some (JArr (j :: js))
    | _, _ => None
    end.
Proof.
  simpl. destruct (to_json v); [|reflexivity].
  match goal with
  | |- context [option_map JArr (match ?t with _ => _ end)] => destruct t
  end; reflexivity.
Qed.

Section Conversions.
Context `{rt : PyRuntime}.

Lemma py_float_raises (v : pyval) (e : exn) :
  py_float v = Raise e -> is_sqlite3_Error e = false.
Proof.
  destruct v as [|b|n|x|s|b|l|items]; simpl; try raised.
  - destruct (binary_normalize prec64 emax64 n 0 false); raised.
  - destruct (float_of_str s); raised.
  - destruct (float_of_bytes b); raised.
Qed.

Lemma py_int_raises (v : pyval) (e : exn) :
  py_int v = Raise e -> is_sqlite3_Error e = false.
Proof.
  destruct v as [|b|n|x|s|b|l|items]; simpl; try raised.
  - destruct x; raised.
  - destruct (int_of_str s); raised.
  - destruct (int_of_bytes b); raised.
Qed.

Lemma to_json_record (row : Row) :
  to_json (record_dict row)
  = if is_blob (date row) then None else Some (record_json row).
Proof. unfold record_dict, record_json. destruct (date row); reflexivity. Qed.

Lemma to_json_records (rows : list Row) :
  to_json (PList (map record_dict rows))
  = if forallb (fun r => negb (is_blob (date r))) rows
    then Some (JArr (map record_json rows)) else None.
Proof.
  induction rows as [|r rows IH]; [reflexivity|].
  cbn [map forallb]. rewrite to_json_cons, IH, to_json_record.
  destruct (is_blob (date r)); [reflexivity|]. cbn [negb andb].
  destruct (forallb (fun r => negb (is_blob (date r))) rows); reflexivity.
Qed.

(** The dictionary display never touches the world; it yields the record
    when the six numbers convert and raises a non-store exception
    otherwise. *)
Lemma stock_record_ok (row : Row) (w : world) :
  numbers_ok row = true ->
  stock_record row w = (Return (record_dict row), w).
Proof.
  unfold numbers_ok, float_accepts, int_accepts, record_dict, float_value,
    int_value, stock_record, float_item, int_item, getitem, bind, lift, ret.
  cbn [String.eqb Ascii.eqb Bool.eqb].
  destruct (py_float (to_python (open row))); [|discriminate].
  destruct (py_float (to_python (high row))); [|discriminate].
  destruct (py_float (to_python (low row))); [|discriminate].
  destruct (py_float (to_python (close row))); [|discriminate].
  destruct (py_float (to_python (adj_close row))); [|discriminate].
  destruct (py_int (to_python (volume row))); [|discriminate].
  reflexivity.
Qed.

Lemma stock_record_raises (row : Row) :
  numbers_ok row = false ->
  exists e, is_sqlite3_Error e = false
            /\ forall w, stock_record row w = (Raise e, w).
Proof.
  unfold numbers_ok, float_accepts, int_accepts,
    stock_record, float_item, int_item, getitem, bind, lift, ret.
  cbn [String.eqb Ascii.eqb Bool.eqb].
  destruct (py_float (to_python (open row))) eqn:E1;
    [|intros _; eauto using py_float_raises].
  destruct (py_float (to_python (high row))) eqn:E2;
    [|intros _; eauto using py_float_raises].
  destruct (py_float (to_python (low row))) eqn:E3;
    [|intros _; eauto using py_float_raises].
  destruct (py_float (to_python (close row))) eqn:E4;
    [|intros _; eauto using py_float_raises].
  destruct (py_float (to_python (adj_close row))) eqn:E5;
    [|intros _; eauto using py_float_raises].
  destruct (py_int (to_python (volume row))) eqn:E6;
    [discriminate|intros _; eauto using py_int_raises].
Qed.

(** The loop: all rows convert and the list grows by their records, or
    the first row that does not convert raises. *)
Lemma for_row_in_ok (rows : list Row) (acc : list pyval) (w : world) :
  forallb numbers_ok rows = true ->
  for_row_in rows acc w = (Return (acc ++ map record_dict rows)%list, w).
Proof.
  revert acc. induction rows as [|r rows IH]; intros acc H; simpl.
  - unfold ret. now rewrite app_nil_r.
  - cbn [forallb] in H. apply andb_prop in H as [Hr Hrows].
    unfold bind. rewrite (stock_record_ok r w Hr), (IH _ Hrows).
    now rewrite <- app_assoc.
Qed.

Lemma for_row_in_raises (rows : list Row) (acc : list pyval) (w : world) :
  forallb numbers_ok rows = false ->
  exists e, for_row_in rows acc w = (Raise e, w) /\ is_sqlite3_Error e = false.
Proof.
  revert acc. induction rows as [|r rows IH]; intros acc H; simpl.
  - discriminate.
  - cbn [forallb] in H. unfold bind.
    destruct (numbers_ok r) eqn:Hr.
    + rewrite (stock_record_ok r w Hr). apply IH. exact H.
    + destruct (stock_record_raises r Hr) as (e & He & Hraise).
      rewrite Hraise. eauto.
Qed.
End Conversions.

(** ** Steps of a request *)

Lemma forallb_perm {A : Type} (f : A -> bool) (l l' : list A) :
  l ≡ₚ l' -> forallb f l = forallb f l'.
Proof.
  induction 1 as [|x l l' _ IH|x y l|l l' l'' _ IH1 _ IH2]; simpl.
  - reflexivity.
  - now rewrite IH.
  - destruct (f x), (f y); reflexivity.
  - now rewrite IH1.
Qed.

Lemma run_select_all (tables : gmap string (list Row)) :
  run_statement select_all_order_by_date [] tables
  = match tables !! "stocks" with
    | Some rows => Return (order_by_date rows)
    | None => Raise (Exn OperationalError "no such table: stocks")
    end.
Proof. unfold run_statement. cbn. destruct (tables !! "stocks"); reflexivity. Qed.

Lemma run_select_date (d : string) (tables : gmap string (list Row)) :
  run_statement select_where_date [PStr d] tables
  = match tables !! "stocks" with
    | Some rows => Return (where_date_eq (SqlText d) rows)
    | None => Raise (Exn OperationalError "no such table: stocks")
    end.
Proof. unfold run_statement. cbn. destruct (tables !! "stocks"); reflexivity. Qed.

Lemma connect_refused (w : world) (msg : string) :
  db w = Unopenable msg ->
  sqlite3_connect w = (Raise (Exn OperationalError msg), w).
Proof. unfold sqlite3_connect. now intros ->. Qed.

Lemma connect_opened (w : world) :
  (forall msg, db w <> Unopenable msg) ->
  sqlite3_connect w
  = (Return (length (trace w)), log (Connect (length (trace w))) w).
Proof.
  unfold sqlite3_connect. intros H. destruct (db w); try reflexivity.
  exfalso. exact (H _ eq_refl).
Qed.

(** Running a statement on the connection just opened. *)
Lemma execute_fresh (w : world) (sql : string) (ps : list pyval) :
  let c := length (trace w) in
  conn_execute c sql ps (log (Connect c) w)
  = (match db w with
     | Unopenable msg => Raise (Exn OperationalError msg)
     | NotADatabase msg => Raise (Exn DatabaseError msg)
     | Database tables => run_statement sql ps tables
     end,
     log (Execute c sql ps) (log (Connect c) w)).
Proof.
  intros c. unfold conn_execute. cbn [log trace db].
  unfold c. rewrite is_open_after_connect. destruct (db w); reflexivity.
Qed.

(** ** The all-stocks route, case by case *)

Lemma to_json_stocks_dict (l : list pyval) (n : Z) (msg : string) :
  to_json (PDict [("success", PBool true); ("data", PList l);
                  ("count", PInt n); ("message", PStr msg)])
  = match to_json (PList l) with
    | Some j => Some (JObj [("success", JBool true); ("data", j);
                            ("count", JInt n); ("message", JStr msg)])
    | None => None
    end.
Proof.
  simpl.
  match goal with
  | |- context [option_map JArr ?t] => destruct t
  end; reflexivity.
Qed.

Lemma to_json_record_dict (rec : pyval) (msg : string) :
  to_json (PDict [("success", PBool true); ("data", rec); ("message", PStr msg)])
  = match to_json rec with
    | Some j => Some (JObj [("success", JBool true); ("data", j);
                            ("message", JStr msg)])
    | None => None
    end.
Proof. simpl. destruct (to_json rec); reflexivity. Qed.

Lemma to_json_error_dict (label msg : string) :
  to_json (PDict [("success", PBool false); ("error", PStr label);
                  ("message", PStr msg)])
  = Some (error_body label msg).
Proof. reflexivity. Qed.

Lemma get_db_connection_connects (w : world) :
  get_db_connection w = sqlite3_connect w.
Proof.
  unfold get_db_connection, bind, ret.
  now destruct (sqlite3_connect w) as [[c|e] w'].
Qed.

Ltac enter_route :=
  unfold get_stocks, get_stocks_by_date, try_except, bind; cbv beta;
  rewrite get_db_connection_connects.

Ltac answer :=
  unfold jsonify, ret, raise;
  rewrite ?to_json_error_dict; cbv beta iota; try reflexivity.

Section AllStocks.
Context `{rt : PyRuntime}.

Lemma numbers_ok_sorted (rows : list Row) :
  forallb numbers_ok (order_by_date rows) = forallb numbers_ok rows.
Proof. apply forallb_perm, order_by_date_perm. Qed.

Lemma dates_encodable_sorted (rows : list Row) :
  forallb (fun r => negb (is_blob (date r))) (order_by_date rows)
  = forallb (fun r => negb (is_blob (date r))) rows.
Proof. apply forallb_perm, order_by_date_perm. Qed.

Lemma servable_split (rows : list Row) :
  forallb servable rows
  = forallb (fun r => negb (is_blob (date r))) rows && forallb numbers_ok rows.
Proof.
  induction rows as [|r rows IH]; [reflexivity|]. cbn [forallb].
  rewrite IH. unfold servable.
  destruct (is_blob (date r)), (numbers_ok r),
    (forallb (fun r => negb (is_blob (date r))) rows); reflexivity.
Qed.

Lemma get_stocks_refused (w : world) (msg : string) :
  db w = Unopenable msg ->
  get_stocks w = (Return (Response (error_body "Database error" msg) 500), w).
Proof.
  intros Hdb. enter_route. rewrite (connect_refused w msg Hdb). answer.
Qed.

Lemma get_stocks_garbled (w : world) (msg : string) :
  db w = NotADatabase msg ->
  get_stocks w
  = (Return (Response (error_body "Database error" msg) 500),
     after_query select_all_order_by_date [] w).
Proof.
  intros Hdb. enter_route.
  rewrite connect_opened by (rewrite Hdb; discriminate). cbv beta iota zeta.
  change "SELECT * FROM stocks ORDER BY date" with select_all_order_by_date.
  rewrite execute_fresh, Hdb. answer.
Qed.

Lemma get_stocks_no_table (w : world) (tables : gmap string (list Row)) :
  db w = Database tables -> tables !! "stocks" = None ->
  get_stocks w
  = (Return (Response (error_body "Database error" "no such table: stocks") 500),
     after_query select_all_order_by_date [] w).
Proof.
  intros Hdb Htab. enter_route.
  rewrite connect_opened by (rewrite Hdb; discriminate). cbv beta iota zeta.
  change "SELECT * FROM stocks ORDER BY date" with select_all_order_by_date.
  rewrite execute_fresh, Hdb, run_select_all, Htab. answer.
Qed.

Lemma get_stocks_bad_numbers (w : world) (rows : list Row) :
  with_table w rows -> forallb numbers_ok rows = false ->
  exists msg,
    get_stocks w
    = (Return (Response (error_body "Internal server error" msg) 500),
       after_query select_all_order_by_date [] w).
Proof.
  intros (tables & Hdb & Htab) Hbad. enter_route.
  rewrite connect_opened by (rewrite Hdb; discriminate). cbv beta iota zeta.
  change "SELECT * FROM stocks ORDER BY date" with select_all_order_by_date.
  rewrite execute_fresh, Hdb, run_select_all, Htab. unfold fetchall.
  rewrite <- numbers_ok_sorted in Hbad.
  destruct (for_row_in_raises (order_by_date rows) []
              (after_query select_all_order_by_date [] w) Hbad) as (e & He & Hcls).
  unfold after_query in He. rewrite He, Hcls. exists (str_e e). answer.
Qed.

Lemma get_stocks_blob_date (w : world) (rows : list Row) :
  with_table w rows -> forallb numbers_ok rows = true ->
  forallb (fun r => negb (is_blob (date r))) rows = false ->
  get_stocks w
  = (Return (Response (error_body "Internal server error"
                         "Object of type bytes is not JSON serializable") 500),
     after_close select_all_order_by_date [] w).
Proof.
  intros (tables & Hdb & Htab) Hnum Hblob. enter_route.
  rewrite connect_opened by (rewrite Hdb; discriminate). cbv beta iota zeta.
  change "SELECT * FROM stocks ORDER BY date" with select_all_order_by_date.
  rewrite execute_fresh, Hdb, run_select_all, Htab. unfold fetchall.
  rewrite for_row_in_ok by (now rewrite numbers_ok_sorted).
  unfold conn_close. cbv beta iota. unfold jsonify at 1.
  rewrite to_json_stocks_dict. cbn [app].
  rewrite to_json_records, dates_encodable_sorted, Hblob. answer.
Qed.

Lemma get_stocks_served (w : world) (rows : list Row) :
  with_table w rows -> forallb servable rows = true ->
  get_stocks w
  = (Return (Response (stocks_body (map record_json (order_by_date rows))) 200),
     after_close select_all_order_by_date [] w).
Proof.
  intros (tables & Hdb & Htab) Hok.
  rewrite servable_split in Hok. apply andb_prop in Hok as [Hdates Hnum].
  enter_route.
  rewrite connect_opened by (rewrite Hdb; discriminate). cbv beta iota zeta.
  change "SELECT * FROM stocks ORDER BY date" with select_all_order_by_date.
  rewrite execute_fresh, Hdb, run_select_all, Htab. unfold fetchall.
  rewrite for_row_in_ok by (now rewrite numbers_ok_sorted).
  unfold conn_close. cbv beta iota. unfold jsonify at 1.
  rewrite to_json_stocks_dict. cbn [app].
  rewrite to_json_records, dates_encodable_sorted, Hdates.
  unfold ret, stocks_body. rewrite !length_map. reflexivity.
Qed.
End AllStocks.

(** ** The date route, case by case *)

Lemma where_date_eq_none (d : string) (rows : list Row) :
  (forall r, In r rows -> date r <> SqlText d) ->
  where_date_eq (SqlText d) rows = [].
Proof.
  unfold where_date_eq. induction rows as [|r rows IH]; intros H; [reflexivity|].
  simpl. destruct (sql_eqb (date r) (SqlText d)) eqn:E.
  - apply sql_eqb_text in E. destruct (H r); [now left | exact E].
  - apply IH. intros r' Hr'. apply H. now right.
Qed.

Lemma where_date_eq_first (d : string) (pre post : list Row) (row : Row) :
  Forall (fun r => date r <> SqlText d) pre -> date row = SqlText d ->
  head (where_date_eq (SqlText d) (pre ++ row :: post)%list) = Some row.
Proof.
  unfold where_date_eq. intros Hpre Hrow.
  induction Hpre as [|r pre Hr _ IH]; simpl.
  - assert (E : sql_eqb (date row) (SqlText d) = true) by now apply sql_eqb_text.
    now rewrite E.
  - destruct (sql_eqb (date r) (SqlText d)) eqn:E; [|exact IH].
    apply sql_eqb_text in E. contradiction.
Qed.

Lemma where_date_eq_head (d : string) (rows : list Row) (row : Row) :
  head (where_date_eq (SqlText d) rows) = Some row ->
  In row rows /\ date row = SqlText d.
Proof.
  unfold where_date_eq. intros H.
  destruct (List.filter (fun r => sql_eqb (date r) (SqlText d)) rows)
    as [|r l] eqn:E; [discriminate|].
  injection H as ->.
  assert (Hin : In row (List.filter (fun r => sql_eqb (date r) (SqlText d)) rows))
    by (rewrite E; now left).
  apply filter_In in Hin as [Hin Heq]. split; [exact Hin|].
  now apply sql_eqb_text.
Qed.

Ltac query_by_date Hdb :=
  enter_route; rewrite connect_opened by (rewrite Hdb; discriminate);
  cbv beta iota zeta;
  change "SELECT * FROM stocks WHERE date = ?" with select_where_date;
  rewrite execute_fresh, Hdb.

Section ByDate.
Context `{rt : PyRuntime}.

Lemma by_date_refused (d : string) (w : world) (msg : string) :
  db w = Unopenable msg ->
  get_stocks_by_date d w
  = (Return (Response (error_body "Database Error" msg) 500), w).
Proof.
  intros Hdb. enter_route. rewrite (connect_refused w msg Hdb). answer.
Qed.

Lemma by_date_garbled (d : string) (w : world) (msg : string) :
  db w = NotADatabase msg ->
  get_stocks_by_date d w
  = (Return (Response (error_body "Database Error" msg) 500),
     after_query select_where_date [PStr d] w).
Proof. intros Hdb. query_by_date Hdb. answer. Qed.

Lemma by_date_no_table (d : string) (w : world)
    (tables : gmap string (list Row)) :
  db w = Database tables -> tables !! "stocks" = None ->
  get_stocks_by_date d w
  = (Return (Response (error_body "Database Error" "no such table: stocks") 500),
     after_query select_where_date [PStr d] w).
Proof.
  intros Hdb Htab. query_by_date Hdb. rewrite run_select_date, Htab. answer.
Qed.

Lemma by_date_absent (d : string) (w : world) (rows : list Row) :
  with_table w rows -> where_date_eq (SqlText d) rows = [] ->
  get_stocks_by_date d w
  = (Return (Response (not_found_body d) 404),
     after_close select_where_date [PStr d] w).
Proof.
  intros (tables & Hdb & Htab) Hnone. query_by_date Hdb.
  rewrite run_select_date, Htab, Hnone. unfold conn_close. cbn [fetchone head].
  cbv beta iota. answer.
Qed.

Lemma by_date_bad_numbers (row : Row) :
  numbers_ok row = false ->
  exists msg, forall (d : string) (w : world) (rows : list Row),
    with_table w rows -> head (where_date_eq (SqlText d) rows) = Some row ->
    get_stocks_by_date d w
    = (Return (Response (error_body "Internal Server Error" msg) 500),
       after_close select_where_date [PStr d] w).
Proof.
  intros Hbad. destruct (stock_record_raises row Hbad) as (e & Hcls & He).
  exists (str_e e). intros d w rows (tables & Hdb & Htab) Hrow.
  query_by_date Hdb.
  rewrite run_select_date, Htab. unfold fetchone. rewrite Hrow.
  unfold conn_close. cbv beta iota. rewrite He, Hcls. answer.
Qed.

Lemma by_date_found (d : string) (w : world) (rows : list Row) (row : Row) :
  with_table w rows -> head (where_date_eq (SqlText d) rows) = Some row ->
  numbers_ok row = true ->
  get_stocks_by_date d w
  = (Return (Response (found_body d (record_json row)) 200),
     after_close select_where_date [PStr d] w).
Proof.
  intros (tables & Hdb & Htab) Hrow Hnum. query_by_date Hdb.
  rewrite run_select_date, Htab. unfold fetchone. rewrite Hrow.
  unfold conn_close. cbv beta iota.
  rewrite stock_record_ok by exact Hnum. unfold jsonify at 1.
  rewrite to_json_record_dict, to_json_record.
  apply where_date_eq_head in Hrow as [_ Hdate]. rewrite Hdate.
  reflexivity.
Qed.
End ByDate.

(** ** What a status 200 tells *)

Ltac not_200 :=
  let H := fresh in
  cbn [fst]; intros H; injection H as _ H; discriminate H.

Section Inversion.
Context `{rt : PyRuntime}.

Lemma get_stocks_200 (w : world) (j : json) :
  fst (get_stocks w) = Return (Response j 200) ->
  exists rows, with_table w rows /\ forallb servable rows = true.
Proof.
  destruct (db w) as [msg|msg|tables] eqn:Hdb.
  - rewrite (get_stocks_refused w msg Hdb). not_200.
  - rewrite (get_stocks_garbled w msg Hdb). not_200.
  - destruct (tables !! "stocks") as [rows|] eqn:Htab.
    + assert (Hw : with_table w rows) by (exists tables; auto).
      destruct (forallb numbers_ok rows) eqn:Hnum.
      * destruct (forallb (fun r => negb (is_blob (date r))) rows) eqn:Hdates.
        -- intros _. exists rows. split; [exact Hw|].
           now rewrite servable_split, Hdates, Hnum.
        -- rewrite (get_stocks_blob_date w rows Hw Hnum Hdates). not_200.
      * destruct (get_stocks_bad_numbers w rows Hw Hnum) as (msg & ->). not_200.
    + rewrite (get_stocks_no_table w tables Hdb Htab). not_200.
Qed.

Lemma by_date_200 (d : string) (w : world) (j : json) :
  fst (get_stocks_by_date d w) = Return (Response j 200) ->
  exists rows row,
    with_table w rows /\ head (where_date_eq (SqlText d) rows) = Some row
    /\ numbers_ok row = true.
Proof.
  destruct (db w) as [msg|msg|tables] eqn:Hdb.
  - rewrite (by_date_refused d w msg Hdb). not_200.
  - rewrite (by_date_garbled d w msg Hdb). not_200.
  - destruct (tables !! "stocks") as [rows|] eqn:Htab.
    + assert (Hw : with_table w rows) by (exists tables; auto).
      destruct (where_date_eq (SqlText d) rows) as [|row rest] eqn:Hsel.
      * rewrite (by_date_absent d w rows Hw Hsel). not_200.
      * assert (Hhd : head (where_date_eq (SqlText d) rows) = Some row)
          by now rewrite Hsel.
        destruct (numbers_ok row) eqn:Hnum.
        -- intros _. exists rows, row. auto.
        -- destruct (by_date_bad_numbers row Hnum) as (msg & Hmsg).
           rewrite (Hmsg d w rows Hw Hhd). not_200.
    + rewrite (by_date_no_table d w tables Hdb Htab). not_200.
Qed.

Lemma record_json_coerced (row : Row) :
  numbers_ok row = true -> coerced_from row (record_json row).
Proof.
  unfold numbers_ok, float_accepts, int_accepts, coerced_from, record_json,
    float_value, int_value.
  destruct (py_float (to_python (open row))) as [o|]; [|discriminate].
  destruct (py_float (to_python (high row))) as [h|]; [|discriminate].
  destruct (py_float (to_python (low row))) as [l|]; [|discriminate].
  destruct (py_float (to_python (close row))) as [c|]; [|discriminate].
  destruct (py_float (to_python (adj_close row))) as [a|]; [|discriminate].
  destruct (py_int (to_python (volume row))) as [v|]; [|discriminate].
  intros _. exists o, h, l, c, a, v. repeat split; reflexivity.
Qed.

(** The events a date request adds to the trace. *)
Lemma by_date_trace (d : string) (w : world) :
  let c := length (trace w) in
  let w' := snd (get_stocks_by_date d w) in
  w' = w \/ w' = after_query select_where_date [PStr d] w
  \/ w' = after_close select_where_date [PStr d] w.
Proof.
  intros c w'. subst w'.
  destruct (db w) as [msg|msg|tables] eqn:Hdb.
  - rewrite (by_date_refused d w msg Hdb). now left.
  - rewrite (by_date_garbled d w msg Hdb). right. now left.
  - destruct (tables !! "stocks") as [rows|] eqn:Htab.
    + assert (Hw : with_table w rows) by (exists tables; auto).
      destruct (where_date_eq (SqlText d) rows) as [|row rest] eqn:Hsel.
      * rewrite (by_date_absent d w rows Hw Hsel). right. now right.
      * assert (Hhd : head (where_date_eq (SqlText d) rows) = Some row)
          by now rewrite Hsel.
        destruct (numbers_ok row) eqn:Hnum.
        -- rewrite (by_date_found d w rows row Hw Hhd Hnum). right. now right.
        -- destruct (by_date_bad_numbers row Hnum) as (msg & Hmsg).
           rewrite (Hmsg d w rows Hw Hhd). right. now right.
    + rewrite (by_date_no_table d w tables Hdb Htab). right. now left.
Qed.
End Inversion.

(** ** The date route sees the table through the selection only *)

Lemma where_date_eq_skip (d : string) (pre post : list Row) (r : Row) :
  date r <> SqlText d ->
  where_date_eq (SqlText d) (pre ++ r :: post)%list
  = where_date_eq (SqlText d) (pre ++ post)%list.
Proof.
  intros Hne. unfold where_date_eq. rewrite !List.filter_app. cbn [List.filter].
  destruct (sql_eqb (date r) (SqlText d)) eqn:E; [|reflexivity].
  apply sql_eqb_text in E. contradiction.
Qed.

Lemma trace_after_query (sql : string) (ps : list pyval) (w : world) :
  trace (after_query sql ps w)
  = (trace w ++ [Connect (length (trace w)); Execute (length (trace w)) sql ps])%list.
Proof. unfold after_query. cbn [log trace]. now rewrite <- app_assoc. Qed.

Lemma trace_after_close (sql : string) (ps : list pyval) (w : world) :
  trace (after_close sql ps w)
  = (trace w ++ [Connect (length (trace w)); Execute (length (trace w)) sql ps;
                 Close (length (trace w))])%list.
Proof.
  unfold after_close. cbn [log trace]. rewrite trace_after_query.
  now rewrite <- app_assoc.
Qed.


Lemma closed_after_close (sql : string) (ps : list pyval) (w : world) :
  is_open (length (trace w)) (trace (after_close sql ps w)) = false.
Proof. unfold after_close. cbn [log trace]. apply is_open_after_close. Qed.

(** The stored date equals the bound string when it is that string. *)
Lemma sql_eqb_dated (d : string) (r : Row) :
  sql_eqb (date r) (SqlText d) = dated d r.
Proof.
  unfold dated. destruct (sql_eqb (date r) (SqlText d)) eqn:E.
  - apply sql_eqb_text in E. rewrite E. symmetry. apply String.eqb_refl.
  - destruct (date r) as [|n|x|s|b]; try reflexivity.
    destruct (String.eqb s d) eqn:E'; [|reflexivity].
    apply String.eqb_eq in E'. subst s.
    rewrite (proj2 (sql_eqb_text _ _) eq_refl) in E. discriminate.
Qed.

Lemma head_where_date_eq (d : string) (rows : list Row) :
  head (where_date_eq (SqlText d) rows) = first_dated d rows.
Proof.
  unfold where_date_eq, first_dated.
  induction rows as [|r rows IH]; [reflexivity|].
  cbn [List.filter List.find]. rewrite sql_eqb_dated.
  destruct (dated d r); [reflexivity|exact IH].
Qed.

Lemma first_dated_date (d : string) (rows : list Row) (row : Row) :
  first_dated d rows = Some row -> In row rows /\ date row = SqlText d.
Proof.
  unfold first_dated. intros H. apply find_some in H as [Hin Hd].
  split; [exact Hin|]. unfold dated in Hd.
  destruct (date row) as [|n|x|s|b]; try discriminate Hd.
  apply String.eqb_eq in Hd. now subst.
Qed.

Section Selection.
Context `{rt : PyRuntime}.

Lemma by_date_selection (d : string) (w1 w2 : world) (rows1 rows2 : list Row) :
  with_table w1 rows1 -> with_table w2 rows2 ->
  where_date_eq (SqlText d) rows1 = where_date_eq (SqlText d) rows2 ->
  fst (get_stocks_by_date d w1) = fst (get_stocks_by_date d w2).
Proof.
  intros Hw1 Hw2 Hsel.
  destruct (where_date_eq (SqlText d) rows2) as [|row rest] eqn:Hsel2.
  - rewrite (by_date_absent d w1 rows1 Hw1 Hsel).
    now rewrite (by_date_absent d w2 rows2 Hw2 Hsel2).
  - assert (Hhd1 : head (where_date_eq (SqlText d) rows1) = Some row)
      by now rewrite Hsel.
    assert (Hhd2 : head (where_date_eq (SqlText d) rows2) = Some row)
      by now rewrite Hsel2.
    destruct (numbers_ok row) eqn:Hnum.
    + rewrite (by_date_found d w1 rows1 row Hw1 Hhd1 Hnum).
      now rewrite (by_date_found d w2 rows2 row Hw2 Hhd2 Hnum).
    + destruct (by_date_bad_numbers row Hnum) as (msg & Hmsg).
      rewrite (Hmsg d w1 rows1 Hw1 Hhd1). now rewrite (Hmsg d w2 rows2 Hw2 Hhd2).
Qed.

End Selection.

(** ** The ingestor *)

Lemma typed_cell (df : DataFrame) (r : row_of dfval) (c : dfval) :
  typed_frame df = true -> In r df -> In c (cells r) ->
  exists t, has_dtype t c = true.
Proof.
  unfold typed_frame, column_typed. cbn [forallb]. rewrite !andb_true_iff.
  intros (Hd & Ho & Hh & Hl & Hc & Ha & Hv & _) Hr Hin.
  assert (Hcol : forall col : row_of dfval -> dfval,
             existsb (fun t => forallb (fun r => has_dtype t (col r)) df)
               [int64; float64; object; boolean] = true ->
             exists t, has_dtype t (col r) = true).
  { intros col H. apply existsb_exists in H as (t & _ & Ht). exists t.
    exact (proj1 (forallb_forall _ _) Ht r Hr). }
  destruct Hin as [<-|[<-|[<-|[<-|[<-|[<-|[<-|[]]]]]]]]; auto.
Qed.

Lemma typed_frame_integers (df : DataFrame) :
  typed_frame df = true ->
  integers fits_int64 df = true
  /\ integers (fun n => negb (needs_uint64 n)) df = true.
Proof.
  intros Ht. unfold integers.
  split; apply forallb_forall; intros r Hr; apply forallb_forall; intros c Hc;
    destruct (typed_cell df r c Ht Hr Hc) as ([] & Hc'); destruct c as [n|x|s|b];
    try discriminate Hc'; try reflexivity; cbn [integer_cell]; cbn in Hc'.
  - exact Hc'.
  - unfold fits_int64 in Hc'. unfold needs_uint64.
    apply andb_prop in Hc' as [_ Hlt]. apply Z.ltb_lt in Hlt.
    apply negb_true_iff, andb_false_iff. left. apply Z.leb_gt. exact Hlt.
Qed.

(** A run on a typed frame ends normally and leaves the frame in [stocks]. *)
Lemma data_ingestion_writes (df : DataFrame) (tables : gmap string (list Row)) :
  typed_frame df = true ->
  data_ingestion df (Database tables)
  = (Return tt, Database (<["stocks" := ingested df]> tables)).
Proof.
  intros Ht. destruct (typed_frame_integers df Ht) as [Hfit Hu].
  unfold data_ingestion, to_sql, executemany, ingested. rewrite Hu, Hfit.
  cbn [negb]. destruct (tables !! "stocks").
  - rewrite lookup_insert_eq, insert_insert_eq, insert_delete_eq. reflexivity.
  - rewrite lookup_insert_eq, insert_insert_eq. reflexivity.
Qed.

Lemma after_ingestion_with_table (df : DataFrame)
    (tables : gmap string (list Row)) (now : datetime) (t : list event) :
  typed_frame df = true ->
  with_table (request_after_ingestion df tables now t) (ingested df).
Proof.
  intros Ht. unfold request_after_ingestion. rewrite (data_ingestion_writes _ _ Ht).
  eexists. split; [reflexivity|]. apply lookup_insert_eq.
Qed.



Lemma insert_value_text (c : dfval) (s : string) :
  insert_value c = SqlText s -> c = DfStr s.
Proof.
  destruct c as [n|x|s'|b]; cbn [insert_value]; try discriminate.
  - destruct x as [?|?| |? ? ?]; discriminate.
  - now intros [= ->].
Qed.

(** What a typed frame leaves can be fetched; what a frame with a column of
    dates as strings leaves has no number in [date]. *)
Lemma typed_frame_decodable (df : DataFrame) :
  typed_frame df = true -> forallb decodable (ingested df) = true.
Proof.
  intros Ht. apply forallb_forall. intros row Hrow.
  apply in_map_iff in Hrow as (r & <- & Hr).
  assert (Hcell : forall c, In c (cells r) -> text_decodes (insert_value c) = true).
  { intros c Hc. destruct (typed_cell df r c Ht Hr Hc) as (t & Hc').
    destruct c as [n|x|s|b]; [reflexivity| |destruct t; try discriminate Hc'; exact Hc'
                              |reflexivity].
    destruct x as [?|?| |? ? ?]; reflexivity. }
  unfold decodable. cbn [cells map_row date open high low close adj_close volume forallb].
  rewrite !Hcell; [reflexivity|..]; cbn [cells In]; tauto.
Qed.

Lemma text_dated_no_numeric (df : DataFrame) :
  text_dated df = true -> no_numeric_date (ingested df) = true.
Proof.
  unfold text_dated, no_numeric_date, ingested.
  intros H. apply forallb_forall. intros row Hrow.
  apply in_map_iff in Hrow as (r & <- & Hr).
  pose proof (proj1 (forallb_forall _ _) H r Hr) as Hd. cbn beta in Hd.
  cbn [map_row date]. destruct (date r) as [n|x|s|b]; try discriminate Hd.
  - destruct x; try discriminate Hd. reflexivity.
  - reflexivity.
Qed.

(** * The claims *)

(** ** Ingestion *)




(** ** GET /api/stocks *)

(** C1, as stated, fails: a table with a row whose opening price is NULL
    (an empty CSV field) is answered with status 500. *)
Lemma get_stocks_null_price :
  with_table (serving [day_two; day_three_no_open]) [day_two; day_three_no_open]
  /\ exists message,
       fst (@get_stocks plain_runtime (serving [day_two; day_three_no_open]))
       = Return (Response (error_body "Internal server error" message) 500).
Proof.
  split.
  - eexists. split; reflexivity.
  - eexists. vm_compute. reflexivity.
Qed.

(** C1, amended.  When the table exists, its TEXT decodes and every row is
    servable (its date is not a BLOB, [float()] accepts its five prices and
    [int()] its volume), GET /api/stocks answers with status 200; [data]
    lists the records of all rows of the table in non-decreasing order of
    their dates, [count] is the length of that list and [success] is true. *)
Theorem get_stocks_lists_sorted `{rt : PyRuntime} (w : world) (rows : list Row) :
  with_table w rows -> forallb decodable rows = true ->
  forallb servable rows = true ->
  exists sorted data,
    sorted ≡ₚ rows
    /\ StronglySorted date_le sorted
    /\ (forall r1 r2 s1 s2,
          date r1 = SqlText s1 -> date r2 = SqlText s2 ->
          (date_le r1 r2 <-> String.leb s1 s2 = true))
    /\ data = map record_json sorted
    /\ length data = length rows
    /\ fst (get_stocks w)
       = Return (Response
                   (JObj [("success", JBool true);
                          ("data", JArr data);
                          ("count", JInt (Z.of_nat (length data)));
                          ("message",
                           JStr ("Successfully retrieved "
                                   ++ str_int (Z.of_nat (length data))
                                   ++ " stock records"))]) 200).
Proof.
  intros Hw _ Hok.
  exists (order_by_date rows), (map record_json (order_by_date rows)).
  split; [apply order_by_date_perm|].
  split; [apply order_by_date_sorted|].
  split; [apply date_le_text|].
  split; [reflexivity|].
  split.
  - rewrite length_map. apply Permutation_length, order_by_date_perm.
  - now rewrite (get_stocks_served w rows Hw Hok).
Qed.

Lemma get_stocks_lists_sorted_witness :
  with_table (serving [day_two; day_one]) [day_two; day_one]
  /\ forallb decodable [day_two; day_one] = true
  /\ @forallb Row (@servable plain_runtime) [day_two; day_one] = true
  /\ exists sorted data,
       sorted ≡ₚ [day_two; day_one]
       /\ StronglySorted date_le sorted
       /\ (forall r1 r2 s1 s2,
             date r1 = SqlText s1 -> date r2 = SqlText s2 ->
             (date_le r1 r2 <-> String.leb s1 s2 = true))
       /\ data = map (@record_json plain_runtime) sorted
       /\ length data = length [day_two; day_one]
       /\ fst (@get_stocks plain_runtime (serving [day_two; day_one]))
          = Return (Response
                      (JObj [("success", JBool true);
                             ("data", JArr data);
                             ("count", JInt (Z.of_nat (length data)));
                             ("message",
                              JStr ("Successfully retrieved "
                                      ++ str_int (Z.of_nat (length data))
                                      ++ " stock records"))]) 200).
Proof.
  assert (Hw : with_table (serving [day_two; day_one]) [day_two; day_one])
    by (eexists; split; reflexivity).
  assert (Hok : @forallb Row (@servable plain_runtime) [day_two; day_one] = true)
    by reflexivity.
  split; [exact Hw|]. split; [reflexivity|]. split; [exact Hok|].
  exact (@get_stocks_lists_sorted plain_runtime _ _ Hw eq_refl Hok).
Defined.

(** ** GET /api/stocks/date/<date> *)

(** C3, as stated, fails: the date 2020-10-02 is in the table, but its row
    has no opening price and the answer is status 500. *)
Lemma by_date_null_price :
  In day_three_no_open [day_one; day_two; day_three_no_open]
  /\ date day_three_no_open = SqlText "2020-10-02"
  /\ exists message,
       fst (@get_stocks_by_date plain_runtime "2020-10-02"
              (serving [day_one; day_two; day_three_no_open]))
       = Return (Response (error_body "Internal Server Error" message) 500).
Proof.
  split; [right; right; left; reflexivity|].
  split; [reflexivity|].
  eexists. vm_compute. reflexivity.
Qed.

(** C3, amended.  When [d] is the date of some row, and [float()] accepts
    the prices and [int()] the volume of the first such row, the date route
    answers with status 200, [success] true and in [data] the record of
    that row: its date, its prices as floating point numbers and its volume
    as an integer, each the conversion of the row's cell. *)
Theorem by_date_returns_the_record `{rt : PyRuntime} (d : string) (w : world)
    (pre post : list Row) (row : Row) :
  with_table w (pre ++ row :: post)%list ->
  Forall (fun r => date r <> SqlText d) pre ->
  date row = SqlText d ->
  numbers_ok row = true ->
  fst (get_stocks_by_date d w)
  = Return (Response
              (JObj [("success", JBool true);
                     ("data", record_json row);
                     ("message",
                      JStr ("Successfully retrieved stock data for " ++ d))]) 200)
  /\ field "date" (record_json row) = Some (JStr d)
  /\ coerced_from row (record_json row).
Proof.
  intros Hw Hpre Hdate Hnum.
  pose proof (where_date_eq_first d pre post row Hpre Hdate) as Hhd.
  rewrite (by_date_found d w _ row Hw Hhd Hnum).
  split; [reflexivity|]. split.
  - unfold record_json. rewrite Hdate. reflexivity.
  - now apply record_json_coerced.
Qed.

Lemma by_date_returns_the_record_witness :
  with_table (serving [day_one; day_two]) ([day_one] ++ day_two :: [])%list
  /\ Forall (fun r : Row => date r <> SqlText "2020-10-01") [day_one]
  /\ date day_two = SqlText "2020-10-01"
  /\ @numbers_ok plain_runtime day_two = true
  /\ (fst (@get_stocks_by_date plain_runtime "2020-10-01" (serving [day_one; day_two]))
      = Return (Response
                  (JObj [("success", JBool true);
                         ("data", @record_json plain_runtime day_two);
                         ("message",
                          JStr ("Successfully retrieved stock data for "
                                  ++ "2020-10-01"))]) 200)
      /\ field "date" (@record_json plain_runtime day_two) = Some (JStr "2020-10-01")
      /\ @coerced_from plain_runtime day_two (@record_json plain_runtime day_two)).
Proof.
  assert (Hw : with_table (serving [day_one; day_two])
                 ([day_one] ++ day_two :: [])%list)
    by (eexists; split; reflexivity).
  assert (Hpre : Forall (fun r : Row => date r <> SqlText "2020-10-01") [day_one])
    by (repeat constructor; discriminate).
  split; [exact Hw|]. split; [exact Hpre|].
  split; [reflexivity|]. split; [reflexivity|].
  exact (@by_date_returns_the_record plain_runtime "2020-10-01" _ [day_one] []
           day_two Hw Hpre eq_refl eq_refl).
Defined.



(** C10, as stated, fails: two rows share the date 2020-10-01, the first of
    them has no opening price, and the answer is an error, status 500. *)
Lemma by_date_duplicate_null_price :
  date day_two_no_open = SqlText "2020-10-01"
  /\ date day_two = SqlText "2020-10-01"
  /\ exists message,
       fst (@get_stocks_by_date plain_runtime "2020-10-01"
              (serving [day_two_no_open; day_two]))
       = Return (Response (error_body "Internal Server Error" message) 500).
Proof.
  split; [reflexivity|]. split; [reflexivity|].
  eexists. vm_compute. reflexivity.
Qed.

(** C10, amended.  When several rows have the date [d], the date route
    answers from the first of them alone: if [float()] accepts its prices
    and [int()] its volume, the status is 200 and [data] is one JSON object,
    the record of that first row, not a list; the later rows with the same
    date do not show. *)
Theorem by_date_first_of_duplicates `{rt : PyRuntime} (d : string) (w : world)
    (pre post : list Row) (row : Row) :
  with_table w (pre ++ row :: post)%list ->
  Forall (fun r => date r <> SqlText d) pre ->
  date row = SqlText d ->
  (exists again, In again post /\ date again = SqlText d) ->
  numbers_ok row = true ->
  exists members resp,
    fst (get_stocks_by_date d w) = Return resp
    /\ status resp = 200
    /\ field "data" (body resp) = Some (JObj members)
    /\ JObj members = record_json row
    /\ forall w1, with_table w1 [row] ->
         fst (get_stocks_by_date d w1) = Return resp.
Proof.
  intros Hw Hpre Hdate _ Hnum.
  pose proof (where_date_eq_first d pre post row Hpre Hdate) as Hhd.
  eexists _, _. rewrite (by_date_found d w _ row Hw Hhd Hnum).
  split; [reflexivity|]. split; [reflexivity|]. split; [reflexivity|].
  split; [reflexivity|].
  intros w1 Hw1.
  pose proof (where_date_eq_first d [] [] row ltac:(constructor) Hdate) as Hhd1.
  now rewrite (by_date_found d w1 _ row Hw1 Hhd1 Hnum).
Qed.

Lemma by_date_first_of_duplicates_witness :
  with_table (serving [day_one; day_two; day_two_again])
    ([day_one] ++ day_two :: [day_two_again])%list
  /\ Forall (fun r : Row => date r <> SqlText "2020-10-01") [day_one]
  /\ date day_two = SqlText "2020-10-01"
  /\ (exists again, In again [day_two_again] /\ date again = SqlText "2020-10-01")
  /\ @numbers_ok plain_runtime day_two = true
  /\ exists members resp,
       fst (@get_stocks_by_date plain_runtime "2020-10-01"
              (serving [day_one; day_two; day_two_again])) = Return resp
       /\ status resp = 200
       /\ field "data" (body resp) = Some (JObj members)
       /\ JObj members = @record_json plain_runtime day_two
       /\ forall w1, with_table w1 [day_two] ->
            fst (@get_stocks_by_date plain_runtime "2020-10-01" w1) = Return resp.
Proof.
  assert (Hw : with_table (serving [day_one; day_two; day_two_again])
                 ([day_one] ++ day_two :: [day_two_again])%list)
    by (eexists; split; reflexivity).
  assert (Hpre : Forall (fun r : Row => date r <> SqlText "2020-10-01") [day_one])
    by (repeat constructor; discriminate).
  assert (Hdup : exists again, In again [day_two_again]
                               /\ date again = SqlText "2020-10-01")
    by (exists day_two_again; split; [left|]; reflexivity).
  split; [exact Hw|]. split; [exact Hpre|]. split; [reflexivity|].
  split; [exact Hdup|]. split; [reflexivity|].
  exact (@by_date_first_of_duplicates plain_runtime "2020-10-01" _ [day_one]
           [day_two_again] day_two Hw Hpre eq_refl Hdup eq_refl).
Defined.



(** ** Both data routes *)

(** C9.  In a response with status 200 of the all-stocks route [data] has,
    row for row, one record for every row of the table, in the order of the
    dates; in one of the date route [data] is the record of a row of the
    table.  Each record carries the five prices of its row as JSON floating
    point numbers and the volume as a JSON integer, and these are what
    [float()] and [int()] return on the row's cells: a cell stored as TEXT
    shows as the number parsed from that text, for each of the six fields.
    Such rows are served: when the TEXT of the table decodes, both routes do
    answer with status 200 for rows all of whose numbers [float()] and
    [int()] accept. *)
Theorem successful_responses_are_coerced `{rt : PyRuntime} :
  (forall (w : world) (j : json),
      fst (get_stocks w) = Return (Response j 200) ->
      exists rows sorted recs,
        with_table w rows
        /\ sorted ≡ₚ rows
        /\ StronglySorted date_le sorted
        /\ field "data" j = Some (JArr recs)
        /\ Forall2 coerced_from sorted recs)
  /\ (forall (d : string) (w : world) (j : json),
        fst (get_stocks_by_date d w) = Return (Response j 200) ->
        exists rows row rec,
          with_table w rows /\ In row rows
          /\ field "data" j = Some rec /\ coerced_from row rec)
  /\ (forall (row : Row) (rec : json),
        coerced_from row rec ->
        (forall s, open row = SqlText s ->
           exists x, float_of_str s = Some x /\ field "open" rec = Some (JFloat x))
        /\ (forall s, high row = SqlText s ->
              exists x, float_of_str s = Some x /\ field "high" rec = Some (JFloat x))
        /\ (forall s, low row = SqlText s ->
              exists x, float_of_str s = Some x /\ field "low" rec = Some (JFloat x))
        /\ (forall s, close row = SqlText s ->
              exists x, float_of_str s = Some x /\ field "close" rec = Some (JFloat x))
        /\ (forall s, adj_close row = SqlText s ->
              exists x, float_of_str s = Some x
                        /\ field "adj_close" rec = Some (JFloat x))
        /\ (forall s, volume row = SqlText s ->
              exists n, int_of_str s = Some n /\ field "volume" rec = Some (JInt n)))
  /\ (forall (w : world) (rows : list Row),
        with_table w rows -> forallb decodable rows = true ->
        forallb servable rows = true ->
        exists j, fst (get_stocks w) = Return (Response j 200))
  /\ (forall (d : string) (w : world) (rows : list Row) (row : Row),
        with_table w rows -> forallb decodable rows = true ->
        no_numeric_date rows = true ->
        first_dated d rows = Some row -> numbers_ok row = true ->
        exists j, fst (get_stocks_by_date d w) = Return (Response j 200)).
Proof.
  split; [|split; [|split; [|split]]].
  - intros w j H200.
    destruct (get_stocks_200 w j H200) as (rows & Hw & Hok).
    rewrite (get_stocks_served w rows Hw Hok) in H200.
    cbn [fst] in H200. injection H200 as <-.
    exists rows, (order_by_date rows), (map record_json (order_by_date rows)).
    split; [exact Hw|]. split; [apply order_by_date_perm|].
    split; [apply order_by_date_sorted|]. split; [reflexivity|].
    rewrite servable_split in Hok. apply andb_prop in Hok as [_ Hnum].
    rewrite <- numbers_ok_sorted in Hnum.
    induction (order_by_date rows) as [|row sorted IH]; [constructor|].
    cbn [forallb] in Hnum. apply andb_prop in Hnum as [Hrow Hrest].
    cbn [map]. constructor; [now apply record_json_coerced|now apply IH].
  - intros d w j H200.
    destruct (by_date_200 d w j H200) as (rows & row & Hw & Hhd & Hnum).
    rewrite (by_date_found d w rows row Hw Hhd Hnum) in H200.
    cbn [fst] in H200. injection H200 as <-.
    exists rows, row, (record_json row).
    split; [exact Hw|]. split; [apply (where_date_eq_head d rows row Hhd)|].
    split; [reflexivity|]. now apply record_json_coerced.
  - intros row rec (o & h & l & c & a & v & Ho & Hh & Hl & Hc & Ha & Hv
                      & Fo & Fh & Fl & Fc & Fa & Fv).
    assert (Hfloat : forall cell x s,
               py_float (to_python cell) = Return x -> cell = SqlText s ->
               float_of_str s = Some x).
    { intros cell x s H ->. cbn in H.
      destruct (float_of_str s) as [y|]; [|discriminate]. now injection H as ->. }
    repeat split; intros s E.
    + exists o. split; [exact (Hfloat _ _ _ Ho E)|exact Fo].
    + exists h. split; [exact (Hfloat _ _ _ Hh E)|exact Fh].
    + exists l. split; [exact (Hfloat _ _ _ Hl E)|exact Fl].
    + exists c. split; [exact (Hfloat _ _ _ Hc E)|exact Fc].
    + exists a. split; [exact (Hfloat _ _ _ Ha E)|exact Fa].
    + rewrite E in Hv. cbn in Hv.
      destruct (int_of_str s) as [n|]; [|discriminate].
      injection Hv as ->. eauto.
  - intros w rows Hw _ Hok. rewrite (get_stocks_served w rows Hw Hok). eauto.
  - intros d w rows row Hw _ _ Hfirst Hnum.
    rewrite <- head_where_date_eq in Hfirst.
    rewrite (by_date_found d w rows row Hw Hfirst Hnum). eauto.
Qed.

Lemma successful_responses_are_coerced_witness :
  (exists j,
      fst (@get_stocks plain_runtime (serving [day_two; day_one]))
      = Return (Response j 200)
      /\ exists rows sorted recs,
           with_table (serving [day_two; day_one]) rows
           /\ sorted ≡ₚ rows
           /\ StronglySorted date_le sorted
           /\ field "data" j = Some (JArr recs)
           /\ Forall2 (@coerced_from plain_runtime) sorted recs)
  /\ (exists j,
        fst (@get_stocks_by_date plain_runtime "2020-09-30"
               (serving [day_two; day_one]))
        = Return (Response j 200)
        /\ exists rows row rec,
             with_table (serving [day_two; day_one]) rows /\ In row rows
             /\ field "data" j = Some rec /\ @coerced_from plain_runtime row rec)
  /\ (exists x, @float_of_str plain_runtime "10" = Some x
                /\ field "open" (@record_json plain_runtime day_one)
                   = Some (JFloat x))
  /\ (exists x, @float_of_str plain_runtime "11" = Some x
                /\ field "high" (@record_json plain_runtime day_one)
                   = Some (JFloat x))
  /\ (exists x, @float_of_str plain_runtime "9" = Some x
                /\ field "low" (@record_json plain_runtime day_one)
                   = Some (JFloat x))
  /\ (exists x, @float_of_str plain_runtime "9" = Some x
                /\ field "close" (@record_json plain_runtime day_one)
                   = Some (JFloat x))
  /\ (exists x, @float_of_str plain_runtime "9" = Some x
                /\ field "adj_close" (@record_json plain_runtime day_one)
                   = Some (JFloat x))
  /\ (exists n, @int_of_str plain_runtime "338584400" = Some n
                /\ field "volume" (@record_json plain_runtime day_one)
                   = Some (JInt n)).
Proof.
  assert (Hw : with_table (serving [day_two; day_one]) [day_two; day_one])
    by (eexists; split; reflexivity).
  destruct (@successful_responses_are_coerced plain_runtime)
    as (Hall & Hone & Htext & Hlist & Hdate).
  destruct (Htext day_one (@record_json plain_runtime day_one)
              (@record_json_coerced plain_runtime day_one eq_refl))
    as (Ho & Hh & Hl & Hc & Ha & Hv).
  split.
  { destruct (Hlist _ _ Hw eq_refl eq_refl) as (j & Hj).
    exists j. split; [exact Hj|exact (Hall _ _ Hj)]. }
  split.
  { destruct (Hdate "2020-09-30" _ _ day_one Hw eq_refl eq_refl eq_refl eq_refl)
      as (j & Hj).
    exists j. split; [exact Hj|exact (Hone _ _ _ Hj)]. }
  split; [exact (Ho "10" eq_refl)|].
  split; [exact (Hh "11" eq_refl)|].
  split; [exact (Hl "9" eq_refl)|].
  split; [exact (Hc "9" eq_refl)|].
  split; [exact (Ha "9" eq_refl)|].
  exact (Hv "338584400" eq_refl).
Defined.

(** ** Error responses *)



(** ** GET /api/health *)

Lemma all_from_spec (f : Z -> bool) (n : nat) (z : Z) :
  all_from n z f = true ->
  forall x, z <= x < z + Z.of_nat n -> f x = true.
Proof.
  revert z. induction n as [|n IH]; intros z H x Hx; [lia|].
  cbn [all_from] in H. destruct (f z) eqn:Hz; [|discriminate].
  destruct (Z.eq_dec x z) as [->|Hne]; [exact Hz|].
  apply (IH (z + 1) H). lia.
Qed.

Lemma has_shape_app (p1 p2 : list shape) (s1 s2 : string) :
  has_shape p1 s1 = true -> has_shape p2 s2 = true ->
  has_shape (p1 ++ p2)%list (s1 ++ s2) = true.
Proof.
  revert s1. induction p1 as [|[|c] p1 IH]; intros [|a s1] H1 H2;
    cbn [has_shape app] in H1 |- *; try discriminate; try exact H2.
  - change (String a s1 ++ s2) with (String a (s1 ++ s2)).
    apply andb_prop in H1 as [Ha Hs]. rewrite Ha. now apply IH.
  - change (String a s1 ++ s2) with (String a (s1 ++ s2)).
    apply andb_prop in H1 as [Ha Hs]. rewrite Ha. now apply IH.
Qed.

Lemma string_app_empty (s : string) : s ++ EmptyString = s.
Proof.
  induction s as [|a s IH]; [reflexivity|].
  change (String a s ++ EmptyString) with (String a (s ++ EmptyString)).
  now rewrite IH.
Qed.

Lemma string_app_assoc (s t u : string) : (s ++ t) ++ u = s ++ (t ++ u).
Proof.
  induction s as [|a s IH]; [reflexivity|].
  change ((String a s ++ t) ++ u) with (String a ((s ++ t) ++ u)).
  now rewrite IH.
Qed.

Lemma two_digits (n : Z) :
  0 <= n <= 99 -> has_shape (digits 2) (zero_padded 2 n) = true.
Proof.
  intros H.
  apply (all_from_spec (fun n => has_shape (digits 2) (zero_padded 2 n)) 100 0);
    [vm_compute; reflexivity | lia].
Qed.

Lemma four_digits (n : Z) :
  0 <= n <= 9999 -> has_shape (digits 4) (zero_padded 4 n) = true.
Proof.
  intros H.
  apply (all_from_spec (fun n => has_shape (digits 4) (zero_padded 4 n))
           (Z.to_nat 10000) 0); [vm_compute; reflexivity | lia].
Qed.

Lemma six_digits (n : Z) :
  0 <= n <= 999999 -> has_shape (digits 6) (zero_padded 6 n) = true.
Proof.
  intros H.
  apply (all_from_spec (fun n => has_shape (digits 6) (zero_padded 6 n))
           (Z.to_nat 1000000) 0); [vm_compute; reflexivity | lia].
Qed.

Lemma isoformat_shape (dt : datetime) :
  valid_datetime dt -> iso8601 (isoformat dt) = true.
Proof.
  intros (Hy & Hmo & Hd & Hh & Hmi & Hs & Hus).
  assert (Hsec : has_shape to_the_second
                   (zero_padded 4 (year dt) ++ "-" ++ zero_padded 2 (month dt)
                      ++ "-" ++ zero_padded 2 (day dt) ++ "T"
                      ++ zero_padded 2 (hour dt) ++ ":"
                      ++ zero_padded 2 (minute dt) ++ ":"
                      ++ zero_padded 2 (second dt)) = true).
  { unfold to_the_second.
    repeat (apply has_shape_app;
            [first [apply four_digits; lia | apply two_digits; lia | reflexivity]|]).
    apply two_digits; lia. }
  unfold iso8601, isoformat.
  destruct (microsecond dt =? 0) eqn:E.
  - rewrite !string_app_empty. rewrite Hsec. reflexivity.
  - apply orb_true_intro. right.
    assert (Hfrac : has_shape fraction ("." ++ zero_padded 6 (microsecond dt)) = true).
    { change fraction with ([Lit "."%char] ++ digits 6)%list.
      apply has_shape_app; [reflexivity | apply six_digits; lia]. }
    etransitivity; [|exact (has_shape_app _ _ _ _ Hsec Hfrac)].
    f_equal. now rewrite !string_app_assoc.
Qed.

(** C7.  GET /api/health answers with status 200, [status] "healthy" and in
    [timestamp] the current time in the ISO-8601 form
    [YYYY-MM-DDTHH:MM:SS] or [YYYY-MM-DDTHH:MM:SS.ffffff], whatever the
    database file is; it leaves the world as it found it: no connection is
    opened, no statement is run. *)
Theorem health_check_is_healthy (w : world) :
  valid_datetime (clock w) ->
  exists timestamp,
    health_check w
    = (Return (Response (JObj [("status", JStr "healthy");
                               ("timestamp", JStr timestamp)]) 200), w)
    /\ timestamp = isoformat (clock w)
    /\ iso8601 timestamp = true.
Proof.
  intros Hclock. exists (isoformat (clock w)).
  split; [reflexivity|]. split; [reflexivity|]. now apply isoformat_shape.
Qed.

Lemma health_check_is_healthy_witness :
  valid_datetime (clock (mk_world (Unopenable "unable to open database file")
                           half_past_ten []))
  /\ exists timestamp,
       health_check (mk_world (Unopenable "unable to open database file")
                       half_past_ten [])
       = (Return (Response (JObj [("status", JStr "healthy");
                                  ("timestamp", JStr timestamp)]) 200),
          mk_world (Unopenable "unable to open database file") half_past_ten [])
       /\ timestamp = isoformat half_past_ten
       /\ iso8601 timestamp = true.
Proof.
  assert (Hclock : valid_datetime half_past_ten).
  { unfold valid_datetime, half_past_ten. cbn. lia. }
  split; [exact Hclock|].
  exact (health_check_is_healthy
           (mk_world (Unopenable "unable to open database file") half_past_ten [])
           Hclock).
Defined.

(** * Further properties of the routes *)

(** ** Failures do not depend on the request's world *)

Section Failures.
Context `{rt : PyRuntime}.

Lemma for_row_in_fails (rows : list Row) :
  forallb numbers_ok rows = false ->
  exists e, is_sqlite3_Error e = false
            /\ forall acc w, for_row_in rows acc w = (Raise e, w).
Proof.
  induction rows as [|r rows IH]; intros H; [discriminate|].
  cbn [forallb] in H. destruct (numbers_ok r) eqn:Hr.
  - destruct (IH H) as (e & He & Hraise). exists e. split; [exact He|].
    intros acc w. cbn [for_row_in]. unfold bind.
    rewrite (stock_record_ok r w Hr). apply Hraise.
  - destruct (stock_record_raises r Hr) as (e & He & Hraise).
    exists e. split; [exact He|].
    intros acc w. cbn [for_row_in]. unfold bind. now rewrite Hraise.
Qed.

Lemma get_stocks_fails_to_convert (sorted : list Row) :
  forallb numbers_ok sorted = false ->
  exists msg, forall (w : world) (rows : list Row),
    with_table w rows -> order_by_date rows = sorted ->
    get_stocks w
    = (Return (Response (error_body "Internal server error" msg) 500),
       after_query select_all_order_by_date [] w).
Proof.
  intros Hbad. destruct (for_row_in_fails sorted Hbad) as (e & Hcls & He).
  exists (str_e e). intros w rows (tables & Hdb & Htab) Hsorted. enter_route.
  rewrite connect_opened by (rewrite Hdb; discriminate). cbv beta iota zeta.
  change "SELECT * FROM stocks ORDER BY date" with select_all_order_by_date.
  rewrite execute_fresh, Hdb, run_select_all, Htab. unfold fetchall.
  rewrite Hsorted, He, Hcls. answer.
Qed.

(** The response of the all-stocks route is a function of the sorted rows. *)
Lemma get_stocks_by_sorted (w1 w2 : world) (rows1 rows2 : list Row) :
  with_table w1 rows1 -> with_table w2 rows2 ->
  order_by_date rows1 = order_by_date rows2 ->
  fst (get_stocks w1) = fst (get_stocks w2).
Proof.
  intros Hw1 Hw2 Hsorted.
  assert (Hnum : forallb numbers_ok rows1 = forallb numbers_ok rows2)
    by (rewrite <- (numbers_ok_sorted rows1), <- (numbers_ok_sorted rows2);
        now rewrite Hsorted).
  assert (Hdates : forallb (fun r => negb (is_blob (date r))) rows1
                   = forallb (fun r => negb (is_blob (date r))) rows2)
    by (rewrite <- (dates_encodable_sorted rows1), <- (dates_encodable_sorted rows2);
        now rewrite Hsorted).
  destruct (forallb numbers_ok rows2) eqn:Hnum2.
  - destruct (forallb (fun r => negb (is_blob (date r))) rows2) eqn:Hdates2.
    + rewrite (get_stocks_served w1 rows1 Hw1)
        by (now rewrite servable_split, Hdates, Hnum).
      rewrite (get_stocks_served w2 rows2 Hw2)
        by (now rewrite servable_split, Hdates2, Hnum2).
      cbn [fst]. now rewrite Hsorted.
    + rewrite (get_stocks_blob_date w1 rows1 Hw1 Hnum Hdates).
      now rewrite (get_stocks_blob_date w2 rows2 Hw2 Hnum2 Hdates2).
  - assert (Hbad : forallb numbers_ok (order_by_date rows2) = false)
      by now rewrite numbers_ok_sorted.
    destruct (get_stocks_fails_to_convert _ Hbad) as (msg & Hmsg).
    rewrite (Hmsg w1 rows1 Hw1 Hsorted). now rewrite (Hmsg w2 rows2 Hw2 eq_refl).
Qed.

(** The worlds a route can leave. *)
Lemma get_stocks_trace (w : world) :
  let w' := snd (get_stocks w) in
  w' = w \/ w' = after_query select_all_order_by_date [] w
  \/ w' = after_close select_all_order_by_date [] w.
Proof.
  intros w'. subst w'.
  destruct (db w) as [msg|msg|tables] eqn:Hdb.
  - rewrite (get_stocks_refused w msg Hdb). now left.
  - rewrite (get_stocks_garbled w msg Hdb). right. now left.
  - destruct (tables !! "stocks") as [rows|] eqn:Htab.
    + assert (Hw : with_table w rows) by (exists tables; auto).
      destruct (forallb numbers_ok rows) eqn:Hnum.
      * destruct (forallb (fun r => negb (is_blob (date r))) rows) eqn:Hdates.
        -- rewrite (get_stocks_served w rows Hw)
             by (now rewrite servable_split, Hdates, Hnum).
           right. now right.
        -- rewrite (get_stocks_blob_date w rows Hw Hnum Hdates). right. now right.
      * destruct (get_stocks_bad_numbers w rows Hw Hnum) as (msg & ->).
        right. now left.
    + rewrite (get_stocks_no_table w tables Hdb Htab). right. now left.
Qed.

(** The response of either route is a function of the database file. *)
Lemma get_stocks_by_file (w1 w2 : world) :
  db w1 = db w2 -> fst (get_stocks w1) = fst (get_stocks w2).
Proof.
  intros Hdb. destruct (db w2) as [msg|msg|tables] eqn:Hdb2.
  - rewrite (get_stocks_refused w1 msg Hdb). now rewrite (get_stocks_refused w2 msg Hdb2).
  - rewrite (get_stocks_garbled w1 msg Hdb). now rewrite (get_stocks_garbled w2 msg Hdb2).
  - destruct (tables !! "stocks") as [rows|] eqn:Htab.
    + apply (get_stocks_by_sorted w1 w2 rows rows); [| |reflexivity];
        exists tables; auto.
    + rewrite (get_stocks_no_table w1 tables Hdb Htab).
      now rewrite (get_stocks_no_table w2 tables Hdb2 Htab).
Qed.

Lemma by_date_by_file (d : string) (w1 w2 : world) :
  db w1 = db w2 ->
  fst (get_stocks_by_date d w1) = fst (get_stocks_by_date d w2).
Proof.
  intros Hdb. destruct (db w2) as [msg|msg|tables] eqn:Hdb2.
  - rewrite (by_date_refused d w1 msg Hdb). now rewrite (by_date_refused d w2 msg Hdb2).
  - rewrite (by_date_garbled d w1 msg Hdb). now rewrite (by_date_garbled d w2 msg Hdb2).
  - destruct (tables !! "stocks") as [rows|] eqn:Htab.
    + apply (by_date_selection d w1 w2 rows rows); [| |reflexivity];
        exists tables; auto.
    + rewrite (by_date_no_table d w1 tables Hdb Htab).
      now rewrite (by_date_no_table d w2 tables Hdb2 Htab).
Qed.

Lemma get_stocks_keeps_file (w : world) : db (snd (get_stocks w)) = db w.
Proof. destruct (get_stocks_trace w) as [-> | [-> | ->]]; reflexivity. Qed.

Lemma by_date_keeps_file (d : string) (w : world) :
  db (snd (get_stocks_by_date d w)) = db w.
Proof. destruct (by_date_trace d w) as [-> | [-> | ->]]; reflexivity. Qed.
End Failures.

Lemma with_table_unique (w : world) (rows rows' : list Row) :
  with_table w rows -> with_table w rows' -> rows = rows'.
Proof.
  intros (t1 & Hdb1 & Htab1) (t2 & Hdb2 & Htab2).
  rewrite Hdb1 in Hdb2. injection Hdb2 as <-. congruence.
Qed.

Lemma where_date_eq_split (d : string) (rows : list Row) (row : Row) :
  head (where_date_eq (SqlText d) rows) = Some row ->
  exists pre post,
    rows = (pre ++ row :: post)%list
    /\ Forall (fun r => date r <> SqlText d) pre
    /\ date row = SqlText d.
Proof.
  unfold where_date_eq. induction rows as [|r rows IH]; [discriminate|].
  cbn [List.filter]. destruct (sql_eqb (date r) (SqlText d)) eqn:E.
  - intros H. injection H as ->. exists [], rows.
    split; [reflexivity|]. split; [constructor|]. now apply sql_eqb_text.
  - intros H. destruct (IH H) as (pre & post & -> & Hpre & Hrow).
    exists (r :: pre), post. split; [reflexivity|]. split; [|exact Hrow].
    constructor; [|exact Hpre].
    intros Hd. apply sql_eqb_text in Hd. congruence.
Qed.

Lemma where_date_eq_empty (d : string) (rows : list Row) :
  where_date_eq (SqlText d) rows = [] ->
  forall r, In r rows -> date r <> SqlText d.
Proof.
  unfold where_date_eq. intros Hnone r Hin Hd.
  assert (Hsel : In r (List.filter (fun r => sql_eqb (date r) (SqlText d)) rows)).
  { apply filter_In. split; [exact Hin|]. now apply sql_eqb_text. }
  rewrite Hnone in Hsel. destruct Hsel.
Qed.

(** ** Which status, and when *)

(** X1.  GET /api/stocks never lets an exception escape: it always returns
    a response, with status 200 or 500.  A status 200 tells that the
    [stocks] table exists and every row of it is servable; and when the
    table exists, its TEXT decodes and every row is servable, the status is
    200. *)
Theorem get_stocks_always_answers `{rt : PyRuntime} (w : world) :
  exists resp,
    fst (get_stocks w) = Return resp
    /\ (status resp = 200 \/ status resp = 500)
    /\ (status resp = 200 ->
        exists rows, with_table w rows /\ forallb servable rows = true)
    /\ (forall rows,
           with_table w rows -> forallb decodable rows = true ->
           forallb servable rows = true -> status resp = 200).
Proof.
  assert (Hans : exists resp, fst (get_stocks w) = Return resp
                              /\ (status resp = 200 \/ status resp = 500)).
  { destruct (db w) as [msg|msg|tables] eqn:Hdb.
    - rewrite (get_stocks_refused w msg Hdb). eexists. split; [reflexivity|now right].
    - rewrite (get_stocks_garbled w msg Hdb). eexists. split; [reflexivity|now right].
    - destruct (tables !! "stocks") as [rows|] eqn:Htab.
      + assert (Hw : with_table w rows) by (exists tables; auto).
        destruct (forallb servable rows) eqn:Hok.
        * rewrite (get_stocks_served w rows Hw Hok).
          eexists. split; [reflexivity|now left].
        * rewrite servable_split in Hok.
          destruct (forallb numbers_ok rows) eqn:Hnum.
          -- rewrite andb_true_r in Hok.
             rewrite (get_stocks_blob_date w rows Hw Hnum Hok).
             eexists. split; [reflexivity|now right].
          -- destruct (get_stocks_bad_numbers w rows Hw Hnum) as (msg & ->).
             eexists. split; [reflexivity|now right].
      + rewrite (get_stocks_no_table w tables Hdb Htab).
        eexists. split; [reflexivity|now right]. }
  destruct Hans as (resp & Hresp & Hstatus). exists resp.
  split; [exact Hresp|]. split; [exact Hstatus|]. split.
  - intros H200. destruct resp as [j st]. cbn [status] in H200. subst st.
    exact (get_stocks_200 w j Hresp).
  - intros rows Hw _ Hok. rewrite (get_stocks_served w rows Hw Hok) in Hresp.
    cbn [fst] in Hresp. injection Hresp as <-. reflexivity.
Qed.

Lemma get_stocks_always_answers_witness :
  with_table (serving [day_two; day_one]) [day_two; day_one]
  /\ forallb decodable [day_two; day_one] = true
  /\ @forallb Row (@servable plain_runtime) [day_two; day_one] = true
  /\ exists resp,
       fst (@get_stocks plain_runtime (serving [day_two; day_one])) = Return resp
       /\ status resp = 200.
Proof.
  assert (Hw : with_table (serving [day_two; day_one]) [day_two; day_one])
    by (eexists; split; reflexivity).
  split; [exact Hw|]. split; [reflexivity|]. split; [reflexivity|].
  destruct (@get_stocks_always_answers plain_runtime (serving [day_two; day_one]))
    as (resp & Hresp & _ & _ & Hserved).
  exists resp. split; [exact Hresp|exact (Hserved _ Hw eq_refl eq_refl)].
Defined.

(** X2.  GET /api/stocks/date/<d> never lets an exception escape: it always
    returns a response, with status 200, 404 or 500, and with 200 or 404
    only when the table exists.  For a table with no number in [date] and
    TEXT that decodes, the status is 404 exactly when no row has the date
    [d]; it is 200 exactly when [float()] and [int()] accept the numbers of
    the first row whose date is [d]. *)
Theorem by_date_always_answers `{rt : PyRuntime} (d : string) (w : world) :
  exists resp,
    fst (get_stocks_by_date d w) = Return resp
    /\ (status resp = 200 \/ status resp = 404 \/ status resp = 500)
    /\ (status resp = 200 \/ status resp = 404 -> exists rows, with_table w rows)
    /\ (forall rows,
           with_table w rows -> no_numeric_date rows = true ->
           forallb decodable rows = true ->
           (status resp = 404 <-> forall r, In r rows -> date r <> SqlText d)
           /\ (status resp = 200 <->
               exists row, first_dated d rows = Some row /\ numbers_ok row = true)).
Proof.
  assert (Hfail : forall label msg,
             (forall rows, ~ with_table w rows) ->
             fst (get_stocks_by_date d w)
             = Return (Response (error_body label msg) 500) ->
             exists resp,
               fst (get_stocks_by_date d w) = Return resp
               /\ (status resp = 200 \/ status resp = 404 \/ status resp = 500)
               /\ (status resp = 200 \/ status resp = 404 ->
                   exists rows, with_table w rows)
               /\ (forall rows,
                      with_table w rows -> no_numeric_date rows = true ->
                      forallb decodable rows = true ->
                      (status resp = 404 <->
                       forall r, In r rows -> date r <> SqlText d)
                      /\ (status resp = 200 <->
                          exists row, first_dated d rows = Some row
                                      /\ numbers_ok row = true))).
  { intros label msg Hno Hrun. eexists. split; [exact Hrun|].
    split; [now right; right|]. cbn [status]. split.
    - intros [H|H]; discriminate H.
    - intros rows Hw. destruct (Hno rows Hw). }
  destruct (db w) as [msg|msg|tables] eqn:Hdb.
  - apply (Hfail "Database Error" msg).
    + intros rows (t & Hdb' & _). congruence.
    + now rewrite (by_date_refused d w msg Hdb).
  - apply (Hfail "Database Error" msg).
    + intros rows (t & Hdb' & _). congruence.
    + now rewrite (by_date_garbled d w msg Hdb).
  - destruct (tables !! "stocks") as [rows|] eqn:Htab.
    + clear Hfail. assert (Hw : with_table w rows) by (exists tables; auto).
      destruct (where_date_eq (SqlText d) rows) as [|row rest] eqn:Hsel.
      * rewrite (by_date_absent d w rows Hw Hsel). eexists. split; [reflexivity|].
        split; [now right; left|]. cbn [status].
        split; [intros _; now exists rows|].
        intros rows' Hw' _ _. rewrite <- (with_table_unique w _ _ Hw Hw').
        split; split.
        -- intros _. now apply where_date_eq_empty.
        -- intros _. reflexivity.
        -- discriminate.
        -- intros (row & Hfirst & _).
           rewrite <- head_where_date_eq, Hsel in Hfirst. discriminate.
      * assert (Hhd : head (where_date_eq (SqlText d) rows) = Some row)
          by now rewrite Hsel.
        assert (Hfirst : first_dated d rows = Some row)
          by now rewrite <- head_where_date_eq.
        destruct (first_dated_date d rows row Hfirst) as [Hin Hdate].
        destruct (numbers_ok row) eqn:Hnum.
        -- rewrite (by_date_found d w rows row Hw Hhd Hnum).
           eexists. split; [reflexivity|]. split; [now left|]. cbn [status].
           split; [intros _; now exists rows|].
           intros rows' Hw' _ _. rewrite <- (with_table_unique w _ _ Hw Hw').
           split; split.
           ++ discriminate.
           ++ intros Hnone. destruct (Hnone row Hin Hdate).
           ++ intros _. now exists row.
           ++ intros _. reflexivity.
        -- destruct (by_date_bad_numbers row Hnum) as (msg & Hmsg).
           rewrite (Hmsg d w rows Hw Hhd).
           eexists. split; [reflexivity|]. split; [now right; right|]. cbn [status].
           split; [intros [H|H]; discriminate H|].
           intros rows' Hw' _ _. rewrite <- (with_table_unique w _ _ Hw Hw').
           split; split.
           ++ discriminate.
           ++ intros Hnone. destruct (Hnone row Hin Hdate).
           ++ discriminate.
           ++ intros (row' & Hfirst' & Hnum'). congruence.
    + apply (Hfail "Database Error" "no such table: stocks").
      * intros rows (t & Hdb' & Htab'). congruence.
      * now rewrite (by_date_no_table d w tables Hdb Htab).
Qed.

Lemma by_date_always_answers_witness :
  with_table (serving [day_one; day_two]) [day_one; day_two]
  /\ no_numeric_date [day_one; day_two] = true
  /\ forallb decodable [day_one; day_two] = true
  /\ first_dated "2020-10-01" [day_one; day_two] = Some day_two
  /\ @numbers_ok plain_runtime day_two = true
  /\ (forall r, In r [day_one; day_two] -> date r <> SqlText "2020-10-03")
  /\ (exists resp,
        fst (@get_stocks_by_date plain_runtime "2020-10-01"
               (serving [day_one; day_two])) = Return resp
        /\ status resp = 200)
  /\ (exists resp,
        fst (@get_stocks_by_date plain_runtime "2020-10-03"
               (serving [day_one; day_two])) = Return resp
        /\ status resp = 404).
Proof.
  assert (Hw : with_table (serving [day_one; day_two]) [day_one; day_two])
    by (eexists; split; reflexivity).
  assert (Hnone : forall r, In r [day_one; day_two] ->
                            date r <> SqlText "2020-10-03").
  { intros r [<-|[<-|[]]]; discriminate. }
  split; [exact Hw|]. split; [reflexivity|]. split; [reflexivity|].
  split; [reflexivity|]. split; [reflexivity|]. split; [exact Hnone|]. split.
  - destruct (@by_date_always_answers plain_runtime "2020-10-01"
                (serving [day_one; day_two])) as (resp & Hresp & _ & _ & Hwhen).
    exists resp. split; [exact Hresp|].
    apply (proj2 (Hwhen _ Hw eq_refl eq_refl)). exists day_two. split; reflexivity.
  - destruct (@by_date_always_answers plain_runtime "2020-10-03"
                (serving [day_one; day_two])) as (resp & Hresp & _ & _ & Hwhen).
    exists resp. split; [exact Hresp|].
    apply (proj1 (Hwhen _ Hw eq_refl eq_refl)). exact Hnone.
Defined.

(** X3.  When the [stocks] table cannot be read (the file cannot be opened,
    is not a database, or has no such table, as before the first ingestion)
    both data routes answer with status 500 and the store-error label,
    carrying the same message; the date route does not answer 404.  For a
    missing table the message is [no such table: stocks]. *)
Theorem unreadable_table_is_a_store_error `{rt : PyRuntime} (d : string) (w : world) :
  stocks_table (db w) = None ->
  exists message,
    fst (get_stocks w)
    = Return (Response (error_body "Database error" message) 500)
    /\ fst (get_stocks_by_date d w)
       = Return (Response (error_body "Database Error" message) 500)
    /\ (forall tables, db w = Database tables -> message = "no such table: stocks").
Proof.
  intros Hnone. destruct (db w) as [msg|msg|tables] eqn:Hdb.
  - exists msg. rewrite (get_stocks_refused w msg Hdb), (by_date_refused d w msg Hdb).
    repeat split. discriminate.
  - exists msg. rewrite (get_stocks_garbled w msg Hdb), (by_date_garbled d w msg Hdb).
    repeat split. discriminate.
  - cbn [stocks_table] in Hnone. exists "no such table: stocks".
    rewrite (get_stocks_no_table w tables Hdb Hnone).
    rewrite (by_date_no_table d w tables Hdb Hnone). repeat split.
Qed.

Lemma unreadable_table_is_a_store_error_witness :
  stocks_table (db (mk_world (Database ∅) half_past_ten [])) = None
  /\ exists message,
       fst (@get_stocks plain_runtime (mk_world (Database ∅) half_past_ten []))
       = Return (Response (error_body "Database error" message) 500)
       /\ fst (@get_stocks_by_date plain_runtime "2020-10-01"
                 (mk_world (Database ∅) half_past_ten []))
          = Return (Response (error_body "Database Error" message) 500)
       /\ (forall tables,
              db (mk_world (Database ∅) half_past_ten []) = Database tables ->
              message = "no such table: stocks").
Proof.
  split; [reflexivity|].
  exact (@unreadable_table_is_a_store_error plain_runtime "2020-10-01"
           (mk_world (Database ∅) half_past_ten []) eq_refl).
Defined.

(** X4.  One row that cannot be served is enough to fail the whole listing:
    when the table, whose TEXT decodes, has a row whose date is a BLOB or
    one of whose numbers [float()] or [int()] rejects, GET /api/stocks
    answers with status 500 and the label [Internal server error], and lists
    nothing. *)
Theorem one_bad_row_fails_the_listing `{rt : PyRuntime} (w : world)
    (rows : list Row) (bad : Row) :
  with_table w rows -> forallb decodable rows = true ->
  In bad rows -> servable bad = false ->
  exists message,
    fst (get_stocks w)
    = Return (Response (error_body "Internal server error" message) 500).
Proof.
  intros Hw _ Hin Hbad.
  assert (Hall : forallb servable rows = false).
  { destruct (forallb servable rows) eqn:E; [|reflexivity].
    rewrite (proj1 (forallb_forall _ _) E bad Hin) in Hbad. discriminate. }
  rewrite servable_split in Hall.
  destruct (forallb numbers_ok rows) eqn:Hnum.
  - rewrite andb_true_r in Hall.
    rewrite (get_stocks_blob_date w rows Hw Hnum Hall). eauto.
  - destruct (get_stocks_bad_numbers w rows Hw Hnum) as (msg & ->). eauto.
Qed.

Lemma one_bad_row_fails_the_listing_witness :
  with_table (serving [day_one; day_two; day_three_no_open])
    [day_one; day_two; day_three_no_open]
  /\ forallb decodable [day_one; day_two; day_three_no_open] = true
  /\ In day_three_no_open [day_one; day_two; day_three_no_open]
  /\ @servable plain_runtime day_three_no_open = false
  /\ exists message,
       fst (@get_stocks plain_runtime (serving [day_one; day_two; day_three_no_open]))
       = Return (Response (error_body "Internal server error" message) 500).
Proof.
  assert (Hw : with_table (serving [day_one; day_two; day_three_no_open])
                 [day_one; day_two; day_three_no_open])
    by (eexists; split; reflexivity).
  assert (Hin : In day_three_no_open [day_one; day_two; day_three_no_open])
    by (right; right; left; reflexivity).
  split; [exact Hw|]. split; [reflexivity|]. split; [exact Hin|].
  split; [reflexivity|].
  exact (@one_bad_row_fails_the_listing plain_runtime _ _ _ Hw eq_refl Hin eq_refl).
Defined.

(** X5.  On an empty table GET /api/stocks is a success: status 200, an
    empty [data] list, [count] 0 and the message
    [Successfully retrieved 0 stock records]. *)
Theorem empty_table_lists_nothing `{rt : PyRuntime} (w : world) :
  with_table w [] ->
  fst (get_stocks w)
  = Return (Response
              (JObj [("success", JBool true);
                     ("data", JArr []);
                     ("count", JInt 0);
                     ("message", JStr "Successfully retrieved 0 stock records")])
              200).
Proof.
  intros Hw. now rewrite (get_stocks_served w [] Hw eq_refl).
Qed.

Lemma empty_table_lists_nothing_witness :
  with_table (serving []) []
  /\ fst (@get_stocks plain_runtime (serving []))
     = Return (Response
                 (JObj [("success", JBool true);
                        ("data", JArr []);
                        ("count", JInt 0);
                        ("message", JStr "Successfully retrieved 0 stock records")])
                 200).
Proof.
  assert (Hw : with_table (serving []) []) by (eexists; split; reflexivity).
  split; [exact Hw|].
  exact (@empty_table_lists_nothing plain_runtime _ Hw).
Defined.

(** ** Connections and statements *)

(** X6.  A successful GET /api/stocks adds to the trace exactly one
    connection, one statement on it and its closing, in this order; the
    connection is closed when the response is returned. *)
Theorem get_stocks_success_closes `{rt : PyRuntime} (w : world) (j : json) :
  fst (get_stocks w) = Return (Response j 200) ->
  trace (snd (get_stocks w))
  = (trace w ++ one_query (length (trace w))
                  "SELECT * FROM stocks ORDER BY date" [])%list
  /\ is_open (length (trace w)) (trace (snd (get_stocks w))) = false.
Proof.
  intros H200. destruct (get_stocks_200 w j H200) as (rows & Hw & Hok).
  rewrite (get_stocks_served w rows Hw Hok). cbn [snd].
  split; [apply trace_after_close | apply closed_after_close].
Qed.

Lemma get_stocks_success_closes_witness :
  (exists j, fst (@get_stocks plain_runtime (serving [day_two; day_one]))
             = Return (Response j 200))
  /\ trace (snd (@get_stocks plain_runtime (serving [day_two; day_one])))
     = (trace (serving [day_two; day_one])
          ++ one_query (length (trace (serving [day_two; day_one])))
               "SELECT * FROM stocks ORDER BY date" [])%list
  /\ is_open (length (trace (serving [day_two; day_one])))
       (trace (snd (@get_stocks plain_runtime (serving [day_two; day_one]))))
     = false.
Proof.
  assert (Hw : with_table (serving [day_two; day_one]) [day_two; day_one])
    by (eexists; split; reflexivity).
  pose proof (@get_stocks_served plain_runtime _ _ Hw eq_refl) as Hrun.
  apply (f_equal fst) in Hrun. cbn [fst] in Hrun.
  split; [eexists; exact Hrun|].
  exact (@get_stocks_success_closes plain_runtime _ _ Hrun).
Defined.

(** X7.  Whenever the table exists and its TEXT decodes, the date route
    closes its connection before it converts the row: found, not found or
    not convertible, the request adds one connection, the one statement with
    the date bound, and the closing, and the connection is closed at the
    end. *)
Theorem by_date_closes_before_converting `{rt : PyRuntime} (d : string)
    (w : world) (rows : list Row) :
  with_table w rows -> forallb decodable rows = true ->
  trace (snd (get_stocks_by_date d w))
  = (trace w ++ one_query (length (trace w))
                  "SELECT * FROM stocks WHERE date = ?" [PStr d])%list
  /\ is_open (length (trace w)) (trace (snd (get_stocks_by_date d w))) = false.
Proof.
  intros Hw _.
  assert (Hend : snd (get_stocks_by_date d w)
                 = after_close select_where_date [PStr d] w).
  { destruct (where_date_eq (SqlText d) rows) as [|row rest] eqn:Hsel.
    - now rewrite (by_date_absent d w rows Hw Hsel).
    - assert (Hhd : head (where_date_eq (SqlText d) rows) = Some row)
        by now rewrite Hsel.
      destruct (numbers_ok row) eqn:Hnum.
      + now rewrite (by_date_found d w rows row Hw Hhd Hnum).
      + destruct (by_date_bad_numbers row Hnum) as (msg & Hmsg).
        now rewrite (Hmsg d w rows Hw Hhd). }
  rewrite Hend. split; [apply trace_after_close | apply closed_after_close].
Qed.

Lemma by_date_closes_before_converting_witness :
  with_table (serving [day_two_no_open]) [day_two_no_open]
  /\ forallb decodable [day_two_no_open] = true
  /\ trace (snd (@get_stocks_by_date plain_runtime "2020-10-01"
                   (serving [day_two_no_open])))
     = (trace (serving [day_two_no_open])
          ++ one_query (length (trace (serving [day_two_no_open])))
               "SELECT * FROM stocks WHERE date = ?" [PStr "2020-10-01"])%list
  /\ is_open (length (trace (serving [day_two_no_open])))
       (trace (snd (@get_stocks_by_date plain_runtime "2020-10-01"
                      (serving [day_two_no_open])))) = false.
Proof.
  assert (Hw : with_table (serving [day_two_no_open]) [day_two_no_open])
    by (eexists; split; reflexivity).
  split; [exact Hw|]. split; [reflexivity|].
  exact (@by_date_closes_before_converting plain_runtime "2020-10-01" _ _ Hw
           eq_refl).
Defined.

(** X8.  GET /api/stocks is read-only and runs one fixed statement: whatever
    the world, the events it adds contain no statement other than
    [SELECT * FROM stocks ORDER BY date] without parameters, and at most one
    connection; the database file and the clock are as before.  The date
    route leaves the file as it was, too. *)
Theorem get_stocks_only_selects `{rt : PyRuntime} (d : string) (w : world) :
  (exists added,
      trace (snd (get_stocks w)) = (trace w ++ added)%list
      /\ (forall c sql ps,
             In (Execute c sql ps) added ->
             sql = "SELECT * FROM stocks ORDER BY date" /\ ps = [])
      /\ (forall c, In (Connect c) added -> c = length (trace w)))
  /\ db (snd (get_stocks w)) = db w
  /\ clock (snd (get_stocks w)) = clock w
  /\ db (snd (get_stocks_by_date d w)) = db w.
Proof.
  split; [|split; [apply get_stocks_keeps_file|split; [|apply by_date_keeps_file]]].
  - destruct (get_stocks_trace w) as [-> | [-> | ->]].
    + exists []. split; [now rewrite app_nil_r|]. split; intros c; [intros sql ps|]; intros [].
    + eexists. split; [apply trace_after_query|]. split.
      * intros c sql ps [H|[H|[]]]; [discriminate H|].
        injection H as _ <- <-. split; reflexivity.
      * intros c [H|[H|[]]]; [|discriminate H]. now injection H as <-.
    + eexists. split; [apply trace_after_close|]. split.
      * intros c sql ps [H|[H|[H|[]]]]; [discriminate H| |discriminate H].
        injection H as _ <- <-. split; reflexivity.
      * intros c [H|[H|[H|[]]]]; [|discriminate H|discriminate H].
        now injection H as <-.
  - destruct (get_stocks_trace w) as [-> | [-> | ->]]; reflexivity.
Qed.

(** X9.  Requests are independent: the response of a data route depends on
    the database file only, so it is the same after any earlier request as
    before it, also after one that left its connection open; the health
    check leaves no trace at all. *)
Theorem requests_are_independent `{rt : PyRuntime} (d d' : string) (w : world) :
  fst (get_stocks (snd (get_stocks w))) = fst (get_stocks w)
  /\ fst (get_stocks (snd (get_stocks_by_date d' w))) = fst (get_stocks w)
  /\ fst (get_stocks_by_date d (snd (get_stocks w)))
     = fst (get_stocks_by_date d w)
  /\ fst (get_stocks_by_date d (snd (get_stocks_by_date d' w)))
     = fst (get_stocks_by_date d w)
  /\ snd (health_check w) = w
  /\ (forall w', db w' = db w ->
        fst (get_stocks w') = fst (get_stocks w)
        /\ fst (get_stocks_by_date d w') = fst (get_stocks_by_date d w)).
Proof.
  split; [apply get_stocks_by_file, get_stocks_keeps_file|].
  split; [apply get_stocks_by_file, by_date_keeps_file|].
  split; [apply by_date_by_file, get_stocks_keeps_file|].
  split; [apply by_date_by_file, by_date_keeps_file|].
  split; [reflexivity|].
  intros w' Hdb. split; [now apply get_stocks_by_file | now apply by_date_by_file].
Qed.

(** ** The order of the listing *)

Lemma NoDup_map_inj {A B : Type} (f : A -> B) (l : list A) (x y : A) :
  List.NoDup (map f l) -> In x l -> In y l -> f x = f y -> x = y.
Proof.
  induction l as [|a l IH]; intros Hnd Hx Hy Hf; [destruct Hx|].
  cbn [map] in Hnd. apply List.NoDup_cons_iff in Hnd as [Hnotin Hnd].
  destruct Hx as [->|Hx], Hy as [->|Hy].
  - reflexivity.
  - exfalso. apply Hnotin. rewrite Hf. now apply in_map.
  - exfalso. apply Hnotin. rewrite <- Hf. now apply in_map.
  - now apply IH.
Qed.

(** X10.  The listing does not depend on the order in which the table
    stores its rows: two tables holding the same rows, with dates stored as
    text and no date twice, get the same response from GET /api/stocks. *)
Theorem listing_ignores_storage_order `{rt : PyRuntime} (w1 w2 : world)
    (rows1 rows2 : list Row) :
  with_table w1 rows1 -> with_table w2 rows2 ->
  rows1 ≡ₚ rows2 ->
  (forall r, In r rows1 -> exists s, date r = SqlText s) ->
  List.NoDup (map date rows1) ->
  fst (get_stocks w1) = fst (get_stocks w2).
Proof.
  intros Hw1 Hw2 Hperm Htext Hnodup.
  apply (get_stocks_by_sorted w1 w2 rows1 rows2 Hw1 Hw2).
  apply (StronglySorted_unique_strong date_le).
  - intros x1 x2 Hx1 Hx2 H12 H21.
    apply list_elem_of_In in Hx1, Hx2.
    apply (Permutation_in _ (order_by_date_perm rows1)) in Hx1.
    apply (Permutation_in _ (order_by_date_perm rows2)) in Hx2.
    apply (Permutation_in _ (Permutation_sym Hperm)) in Hx2.
    destruct (Htext x1 Hx1) as (s1 & Hs1), (Htext x2 Hx2) as (s2 & Hs2).
    apply (date_le_text x1 x2 s1 s2 Hs1 Hs2) in H12.
    apply (date_le_text x2 x1 s2 s1 Hs2 Hs1) in H21.
    apply (NoDup_map_inj date rows1 x1 x2 Hnodup Hx1 Hx2).
    rewrite Hs1, Hs2. f_equal. now apply String.leb_antisym.
  - apply order_by_date_sorted.
  - apply order_by_date_sorted.
  - rewrite !order_by_date_perm. exact Hperm.
Qed.

Lemma listing_ignores_storage_order_witness :
  with_table (serving [day_two; day_one]) [day_two; day_one]
  /\ with_table (serving [day_one; day_two]) [day_one; day_two]
  /\ [day_two; day_one] ≡ₚ [day_one; day_two]
  /\ (forall r, In r [day_two; day_one] -> exists s, date r = SqlText s)
  /\ List.NoDup (map date [day_two; day_one])
  /\ fst (@get_stocks plain_runtime (serving [day_two; day_one]))
     = fst (@get_stocks plain_runtime (serving [day_one; day_two])).
Proof.
  assert (Hw1 : with_table (serving [day_two; day_one]) [day_two; day_one])
    by (eexists; split; reflexivity).
  assert (Hw2 : with_table (serving [day_one; day_two]) [day_one; day_two])
    by (eexists; split; reflexivity).
  assert (Hperm : [day_two; day_one] ≡ₚ [day_one; day_two]) by apply perm_swap.
  assert (Htext : forall r, In r [day_two; day_one] -> exists s, date r = SqlText s).
  { intros r [<-|[<-|[]]]; eexists; reflexivity. }
  assert (Hnodup : List.NoDup (map date [day_two; day_one])).
  { repeat constructor; cbn; intuition discriminate. }
  split; [exact Hw1|]. split; [exact Hw2|]. split; [exact Hperm|].
  split; [exact Htext|]. split; [exact Hnodup|].
  exact (@listing_ignores_storage_order plain_runtime _ _ _ _ Hw1 Hw2 Hperm
           Htext Hnodup).
Defined.

(** ** From the file to the response *)

(** X11.  The last run of the ingestor wins, and running it again changes
    nothing: for frames each of whose columns has one dtype, the database
    after ingesting a first and then a second frame is the database after
    ingesting the second alone, and ingesting the second once more leaves it
    as it is. *)
Theorem last_ingestion_wins (df1 df2 : DataFrame)
    (tables : gmap string (list Row)) :
  typed_frame df1 = true -> typed_frame df2 = true ->
  exists file1 file2,
    data_ingestion df1 (Database tables) = (Return tt, file1)
    /\ data_ingestion df2 file1 = (Return tt, file2)
    /\ data_ingestion df2 (Database tables) = (Return tt, file2)
    /\ data_ingestion df2 file2 = (Return tt, file2).
Proof.
  intros Ht1 Ht2.
  exists (Database (<["stocks" := ingested df1]> tables)).
  exists (Database (<["stocks" := ingested df2]> tables)).
  rewrite (data_ingestion_writes df1 _ Ht1), !(data_ingestion_writes df2 _ Ht2).
  rewrite !insert_insert_eq. repeat split.
Qed.

Lemma last_ingestion_wins_witness :
  typed_frame three_days = true
  /\ typed_frame one_day = true
  /\ exists file1 file2,
       data_ingestion three_days (Database {[ "stocks" := [day_one] ]})
       = (Return tt, file1)
       /\ data_ingestion one_day file1 = (Return tt, file2)
       /\ data_ingestion one_day (Database {[ "stocks" := [day_one] ]})
          = (Return tt, file2)
       /\ data_ingestion one_day file2 = (Return tt, file2).
Proof.
  split; [reflexivity|]. split; [reflexivity|].
  exact (last_ingestion_wins three_days one_day {[ "stocks" := [day_one] ]}
           eq_refl eq_refl).
Defined.

Lemma kept_stored (x : pyfloat) :
  kept x = true -> insert_value (DfFloat x) = SqlReal x.
Proof. destruct x as [[]|?| |? ? ?]; try discriminate; reflexivity. Qed.

Lemma storable_row (s : StockRecord) :
  storable s = true ->
  map_row insert_value (frame_row s)
  = mk_row (SqlText (sr_date s)) (SqlReal (sr_open s)) (SqlReal (sr_high s))
      (SqlReal (sr_low s)) (SqlReal (sr_close s)) (SqlReal (sr_adj_close s))
      (SqlInt (sr_volume s)).
Proof.
  unfold storable. rewrite !andb_true_iff.
  intros ((((((_ & _) & Ho) & Hh) & Hl) & Hc) & Ha).
  unfold frame_row, map_row. cbn [date open high low close adj_close volume].
  now rewrite !kept_stored.
Qed.

Lemma storable_typed (recs : list StockRecord) :
  forallb storable recs = true -> typed_frame (map frame_row recs) = true.
Proof.
  intros Hrecs.
  assert (Hcol : forall (col : row_of dfval -> dfval) (t : dtype),
             (forall s, storable s = true -> has_dtype t (col (frame_row s)) = true) ->
             forallb (fun r => has_dtype t (col r)) (map frame_row recs) = true).
  { intros col t H. apply forallb_forall. intros r Hr.
    apply in_map_iff in Hr as (s & <- & Hs).
    exact (H s (proj1 (forallb_forall _ _) Hrecs s Hs)). }
  unfold typed_frame, column_typed. cbn [forallb existsb].
  rewrite (Hcol (@date dfval) object), (Hcol (@open dfval) float64),
    (Hcol (@high dfval) float64), (Hcol (@low dfval) float64),
    (Hcol (@close dfval) float64), (Hcol (@adj_close dfval) float64),
    (Hcol (@volume dfval) int64);
    rewrite ?orb_true_r; try reflexivity;
    intros s; unfold storable; rewrite !andb_true_iff;
    intros ((((((Hd & Hv) & _) & _) & _) & _) & _); try reflexivity; assumption.
Qed.

Section Pipeline.
Context `{rt : PyRuntime}.

Lemma clean_row_numbers_ok (s : StockRecord) :
  storable s = true -> numbers_ok (map_row insert_value (frame_row s)) = true.
Proof. intros Hs. now rewrite (storable_row s Hs). Qed.

Lemma clean_row_json (s : StockRecord) :
  storable s = true ->
  record_json (map_row insert_value (frame_row s)) = stock_json s.
Proof. intros Hs. now rewrite (storable_row s Hs). Qed.

Lemma lacking_row_not_ok (r : row_of dfval) :
  lacks_a_number r -> numbers_ok (map_row insert_value r) = false.
Proof.
  unfold lacks_a_number, missing, numbers_ok. destruct r as [d o h l c a v].
  cbn [map_row open high low close adj_close volume].
  intros [ -> | [ -> | [ -> | [ -> | [ -> | -> ]]]]]; cbn [insert_value];
    change (float_accepts SqlNull) with false;
    change (int_accepts SqlNull) with false;
    rewrite ?andb_false_r; reflexivity.
Qed.
End Pipeline.

(** X12.  What is ingested is what is served: after the ingestor has written
    a frame each of whose columns has one dtype, the date route answers a
    date of the frame with status 200 and the very values of the first CSV
    row with that date (its date, its five prices as floating point numbers,
    its volume as an integer), provided none of that row's prices is missing
    or the negative zero.  Neither the other rows of the frame nor what the
    database held before matter. *)
Theorem ingested_record_is_served `{rt : PyRuntime} (pre post : DataFrame)
    (s : StockRecord) (tables : gmap string (list Row)) (now : datetime)
    (t : list event) :
  typed_frame (pre ++ frame_row s :: post)%list = true ->
  Forall (fun r => date r <> DfStr (sr_date s)) pre ->
  storable s = true ->
  fst (get_stocks_by_date (sr_date s)
         (request_after_ingestion (pre ++ frame_row s :: post)%list tables now t))
  = Return (Response
              (JObj [("success", JBool true);
                     ("data", stock_json s);
                     ("message",
                      JStr ("Successfully retrieved stock data for "
                              ++ sr_date s))]) 200).
Proof.
  intros Ht Hpre Hclean.
  pose proof (after_ingestion_with_table (pre ++ frame_row s :: post)%list tables
                now t Ht) as Hw.
  unfold ingested in Hw. rewrite map_app in Hw. cbn [map] in Hw.
  assert (Hpre' : Forall (fun r : Row => date r <> SqlText (sr_date s))
                    (map (map_row insert_value) pre)).
  { apply List.Forall_forall. intros r Hin.
    apply in_map_iff in Hin as (r0 & <- & Hin0).
    intros Hd. apply insert_value_text in Hd.
    exact (proj1 (List.Forall_forall _ _) Hpre r0 Hin0 Hd). }
  pose proof (where_date_eq_first (sr_date s) _
                (map (map_row insert_value) post)
                (map_row insert_value (frame_row s)) Hpre' eq_refl) as Hhd.
  rewrite (by_date_found _ _ _ _ Hw Hhd (clean_row_numbers_ok s Hclean)).
  cbn [fst]. unfold found_body. now rewrite (clean_row_json s Hclean).
Qed.

Lemma ingested_record_is_served_witness :
  typed_frame
    ([frame_row (mk_record "2020-09-30" (real 10) (real 11) (real 9) (real 9)
                   (real 9) 338584400)]
       ++ frame_row (mk_record "2020-10-01" (real 9) (real 10) (real 9) (real 9)
                       (real 9) 124297600) :: [])%list = true
  /\ Forall (fun r : row_of dfval => date r <> DfStr "2020-10-01")
       [frame_row (mk_record "2020-09-30" (real 10) (real 11) (real 9) (real 9)
                     (real 9) 338584400)]
  /\ storable (mk_record "2020-10-01" (real 9) (real 10) (real 9) (real 9)
                 (real 9) 124297600) = true
  /\ fst (@get_stocks_by_date plain_runtime "2020-10-01"
            (request_after_ingestion
               ([frame_row (mk_record "2020-09-30" (real 10) (real 11) (real 9)
                              (real 9) (real 9) 338584400)]
                  ++ frame_row (mk_record "2020-10-01" (real 9) (real 10)
                                  (real 9) (real 9) (real 9) 124297600) :: [])%list
               ∅ half_past_ten []))
     = Return (Response
                 (JObj [("success", JBool true);
                        ("data", stock_json (mk_record "2020-10-01" (real 9)
                                               (real 10) (real 9) (real 9)
                                               (real 9) 124297600));
                        ("message",
                         JStr ("Successfully retrieved stock data for "
                                 ++ "2020-10-01"))]) 200).
Proof.
  assert (Hpre : Forall (fun r : row_of dfval => date r <> DfStr "2020-10-01")
                   [frame_row (mk_record "2020-09-30" (real 10) (real 11) (real 9)
                                 (real 9) (real 9) 338584400)])
    by (repeat constructor; discriminate).
  split; [reflexivity|]. split; [exact Hpre|]. split; [reflexivity|].
  exact (@ingested_record_is_served plain_runtime
           [frame_row (mk_record "2020-09-30" (real 10) (real 11) (real 9) (real 9)
                         (real 9) 338584400)] []
           (mk_record "2020-10-01" (real 9) (real 10) (real 9) (real 9) (real 9)
              124297600) ∅ half_past_ten [] eq_refl Hpre eq_refl).
Defined.

(** X13.  After the ingestor has written a frame of records the table holds
    unchanged (the date a string, the volume within 64 bits, no price
    missing or the negative zero), GET /api/stocks answers with status 200
    and lists exactly the records of the frame, each once, in the byte-wise
    order of their date strings; [count] is the number of rows of the
    frame. *)
Theorem ingested_records_are_listed `{rt : PyRuntime} (recs : list StockRecord)
    (tables : gmap string (list Row)) (now : datetime) (t : list event) :
  forallb storable recs = true ->
  exists sorted,
    sorted ≡ₚ recs
    /\ StronglySorted (fun a b => String.leb (sr_date a) (sr_date b) = true) sorted
    /\ fst (get_stocks (request_after_ingestion (map frame_row recs) tables now t))
       = Return (Response
                   (JObj [("success", JBool true);
                          ("data", JArr (map stock_json sorted));
                          ("count", JInt (Z.of_nat (length recs)));
                          ("message",
                           JStr ("Successfully retrieved "
                                   ++ str_int (Z.of_nat (length recs))
                                   ++ " stock records"))]) 200).
Proof.
  intros Hclean.
  set (to_row := fun s => map_row insert_value (frame_row s)).
  pose proof (after_ingestion_with_table (map frame_row recs) tables now t
                (storable_typed recs Hclean)) as Hw.
  unfold ingested in Hw. rewrite map_map in Hw. fold to_row in Hw.
  assert (Hperm : order_by_date (map to_row recs) ≡ₚ map to_row recs)
    by apply order_by_date_perm.
  apply Permutation_map_inv in Hperm as (sorted & Hsorted & Hrecs).
  assert (Hclean' : forallb storable sorted = true)
    by (rewrite <- Hclean; symmetry; now apply forallb_perm).
  exists sorted. split; [now symmetry|]. split.
  - pose proof (order_by_date_sorted (map to_row recs)) as Hss.
    rewrite Hsorted in Hss. clear -Hss.
    induction sorted as [|a sorted IH]; [constructor|].
    cbn [map] in Hss. apply StronglySorted_inv in Hss as [Hss Hall].
    constructor; [now apply IH|].
    apply List.Forall_forall. intros b Hb.
    assert (Hab : date_le (to_row a) (to_row b)).
    { apply (proj1 (List.Forall_forall _ _) Hall). now apply in_map. }
    now apply (date_le_text (to_row a) (to_row b) (sr_date a) (sr_date b)).
  - assert (Hok : forallb servable (map to_row recs) = true).
    { apply forallb_forall. intros r Hin.
      apply in_map_iff in Hin as (s & <- & Hs).
      unfold servable, to_row. rewrite clean_row_numbers_ok
        by exact (proj1 (forallb_forall _ _) Hclean s Hs).
      reflexivity. }
    rewrite (get_stocks_served _ _ Hw Hok). cbn [fst]. rewrite Hsorted.
    unfold stocks_body. rewrite map_map, !length_map.
    rewrite (Permutation_length Hrecs).
    assert (Hjson : map (fun s => record_json (to_row s)) sorted
                    = map stock_json sorted).
    { apply map_ext_in. intros s Hs. apply clean_row_json.
      exact (proj1 (forallb_forall _ _) Hclean' s Hs). }
    now rewrite Hjson.
Qed.

Lemma ingested_records_are_listed_witness :
  forallb storable sample_records = true
  /\ exists sorted,
       sorted ≡ₚ sample_records
       /\ StronglySorted
            (fun a b => String.leb (sr_date a) (sr_date b) = true) sorted
       /\ fst (@get_stocks plain_runtime
                 (request_after_ingestion (map frame_row sample_records) ∅
                    half_past_ten []))
          = Return (Response
                      (JObj [("success", JBool true);
                             ("data", JArr (map stock_json sorted));
                             ("count", JInt (Z.of_nat (length sample_records)));
                             ("message",
                              JStr ("Successfully retrieved "
                                      ++ str_int (Z.of_nat (length sample_records))
                                      ++ " stock records"))]) 200).
Proof.
  split; [reflexivity|].
  exact (@ingested_records_are_listed plain_runtime sample_records ∅
           half_past_ten [] eq_refl).
Defined.

(** X14.  A missing number in the CSV breaks the listing: if any row of the
    ingested frame, each of whose columns has one dtype, lacks a price or
    its volume (pandas reads the empty field as NaN, [to_sql] stores NULL),
    GET /api/stocks answers with status 500 and [Internal server error] for
    the whole table. *)
Theorem missing_number_fails_the_listing `{rt : PyRuntime} (df : DataFrame)
    (r : row_of dfval) (tables : gmap string (list Row)) (now : datetime)
    (t : list event) :
  typed_frame df = true -> In r df -> lacks_a_number r ->
  exists message,
    fst (get_stocks (request_after_ingestion df tables now t))
    = Return (Response (error_body "Internal server error" message) 500).
Proof.
  intros Ht Hin Hlacks.
  pose proof (after_ingestion_with_table df tables now t Ht) as Hw.
  assert (Hbad : forallb numbers_ok (ingested df) = false).
  { destruct (forallb numbers_ok (ingested df)) eqn:E; [|reflexivity].
    assert (Hrow : In (map_row insert_value r) (ingested df))
      by (unfold ingested; now apply in_map).
    rewrite <- (proj1 (forallb_forall _ _) E _ Hrow).
    now apply lacking_row_not_ok. }
  destruct (get_stocks_bad_numbers _ _ Hw Hbad) as (msg & ->). eauto.
Qed.

Lemma missing_number_fails_the_listing_witness :
  typed_frame
    (three_days ++ [mk_row (DfStr "2020-10-02") (DfFloat S754_nan)
                      (DfFloat (real 9)) (DfFloat (real 8)) (DfFloat (real 9))
                      (DfFloat (real 9)) (DfInt 55018300)])%list = true
  /\ In (mk_row (DfStr "2020-10-02") (DfFloat S754_nan) (DfFloat (real 9))
           (DfFloat (real 8)) (DfFloat (real 9)) (DfFloat (real 9)) (DfInt 55018300))
        (three_days ++ [mk_row (DfStr "2020-10-02") (DfFloat S754_nan)
                          (DfFloat (real 9)) (DfFloat (real 8)) (DfFloat (real 9))
                          (DfFloat (real 9)) (DfInt 55018300)])%list
  /\ lacks_a_number
       (mk_row (DfStr "2020-10-02") (DfFloat S754_nan) (DfFloat (real 9))
          (DfFloat (real 8)) (DfFloat (real 9)) (DfFloat (real 9)) (DfInt 55018300))
  /\ exists message,
       fst (@get_stocks plain_runtime
              (request_after_ingestion
                 (three_days ++ [mk_row (DfStr "2020-10-02") (DfFloat S754_nan)
                                   (DfFloat (real 9)) (DfFloat (real 8))
                                   (DfFloat (real 9)) (DfFloat (real 9))
                                   (DfInt 55018300)])%list
                 ∅ half_past_ten []))
       = Return (Response (error_body "Internal server error" message) 500).
Proof.
  assert (Hin : In (mk_row (DfStr "2020-10-02") (DfFloat S754_nan) (DfFloat (real 9))
                      (DfFloat (real 8)) (DfFloat (real 9)) (DfFloat (real 9))
                      (DfInt 55018300))
                  (three_days ++ [mk_row (DfStr "2020-10-02") (DfFloat S754_nan)
                                    (DfFloat (real 9)) (DfFloat (real 8))
                                    (DfFloat (real 9)) (DfFloat (real 9))
                                    (DfInt 55018300)])%list)
    by (apply in_or_app; right; left; reflexivity).
  assert (Hlacks : lacks_a_number
                     (mk_row (DfStr "2020-10-02") (DfFloat S754_nan)
                        (DfFloat (real 9)) (DfFloat (real 8)) (DfFloat (real 9))
                        (DfFloat (real 9)) (DfInt 55018300)))
    by (left; reflexivity).
  split; [reflexivity|]. split; [exact Hin|]. split; [exact Hlacks|].
  exact (@missing_number_fails_the_listing plain_runtime
           (three_days ++ [mk_row (DfStr "2020-10-02") (DfFloat S754_nan)
                             (DfFloat (real 9)) (DfFloat (real 8))
                             (DfFloat (real 9)) (DfFloat (real 9))
                             (DfInt 55018300)])%list
           _ ∅ half_past_ten [] eq_refl Hin Hlacks).
Defined.

(** X15.  After a run of the ingestor on a frame each of whose columns has
    one dtype, the dates being strings, a date that is not in the ingested
    file is not found, status 404, even if the table held a row with that
    date before the run. *)
Theorem date_not_in_the_file_is_not_found `{rt : PyRuntime} (df : DataFrame)
    (d : string) (tables : gmap string (list Row)) (now : datetime)
    (t : list event) :
  typed_frame df = true -> text_dated df = true ->
  (forall r, In r df -> date r <> DfStr d) ->
  fst (get_stocks_by_date d (request_after_ingestion df tables now t))
  = Return (Response
              (JObj [("success", JBool false);
                     ("error", JStr "Not found");
                     ("message", JStr ("No stock data found for date " ++ d))])
              404).
Proof.
  intros Ht _ Hnone.
  pose proof (after_ingestion_with_table df tables now t Ht) as Hw.
  assert (Hsel : where_date_eq (SqlText d) (ingested df) = []).
  { apply where_date_eq_none. intros r Hin.
    apply in_map_iff in Hin as (r0 & <- & Hin0).
    intros Hd. apply insert_value_text in Hd. exact (Hnone r0 Hin0 Hd). }
  now rewrite (by_date_absent d _ _ Hw Hsel).
Qed.

Lemma date_not_in_the_file_is_not_found_witness :
  typed_frame one_day = true
  /\ text_dated one_day = true
  /\ (forall r, In r one_day -> date r <> DfStr "2020-10-01")
  /\ fst (@get_stocks_by_date plain_runtime "2020-10-01"
            (request_after_ingestion one_day {[ "stocks" := [day_one; day_two] ]}
               half_past_ten []))
     = Return (Response
                 (JObj [("success", JBool false);
                        ("error", JStr "Not found");
                        ("message",
                         JStr ("No stock data found for date " ++ "2020-10-01"))])
                 404).
Proof.
  assert (Hnone : forall r, In r one_day -> date r <> DfStr "2020-10-01").
  { intros r [<-|[]]. discriminate. }
  split; [reflexivity|]. split; [reflexivity|]. split; [exact Hnone|].
  exact (@date_not_in_the_file_is_not_found plain_runtime one_day "2020-10-01"
           {[ "stocks" := [day_one; day_two] ]} half_past_ten [] eq_refl eq_refl
           Hnone).
Defined.

(** ** Dates as strings *)

Lemma ascii_compare_lt_trans (a b c : ascii) :
  Ascii.compare a b = Lt -> Ascii.compare b c = Lt -> Ascii.compare a c = Lt.
Proof. unfold Ascii.compare. rewrite !N.compare_lt_iff. lia. Qed.

Lemma string_compare_lt_trans (s t u : string) :
  String.compare s t = Lt -> String.compare t u = Lt -> String.compare s u = Lt.
Proof.
  revert t u. induction s as [|a s IH]; intros [|b t] [|c u]; cbn;
    try congruence.
  destruct (Ascii.compare a b) eqn:Eab; try discriminate.
  - apply Ascii.compare_eq_iff in Eab. subst b.
    destruct (Ascii.compare a c); try congruence. apply IH.
  - intros _. destruct (Ascii.compare b c) eqn:Ebc; try discriminate.
    + apply Ascii.compare_eq_iff in Ebc. subst c. now rewrite Eab.
    + intros _. now rewrite (ascii_compare_lt_trans a b c Eab Ebc).
Qed.

Lemma has_shape_length (p : list shape) (s : string) :
  has_shape p s = true -> String.length s = length p.
Proof.
  revert s. induction p as [|[|c] p IH]; intros [|a s] H; cbn in H;
    try discriminate; try reflexivity;
    apply andb_prop in H as [_ H]; cbn; f_equal; now apply IH.
Qed.

Lemma compare_app_same_length (a b x y : string) :
  String.length a = String.length b ->
  String.compare (a ++ x) (b ++ y)
  = match String.compare a b with
    | Eq => String.compare x y
    | c => c
    end.
Proof.
  revert b. induction a as [|c a IH]; intros [|c' b] Hlen;
    try discriminate Hlen; [reflexivity|].
  change (String c a ++ x) with (String c (a ++ x)).
  change (String c' b ++ y) with (String c' (b ++ y)).
  cbn [String.compare]. destruct (Ascii.compare c c'); try reflexivity.
  apply IH. now injection Hlen.
Qed.

(** A numbering of strings that goes up at each step is an order embedding. *)
Lemma compare_from_steps (f : Z -> string) (n : Z) :
  (forall k, 0 <= k < n - 1 -> String.compare (f k) (f (k + 1)) = Lt) ->
  forall a b, 0 <= a < n -> 0 <= b < n ->
              String.compare (f a) (f b) = (a ?= b).
Proof.
  intros Hstep.
  assert (Hup : forall k a, 0 <= a -> a + Z.of_nat (S k) < n ->
                            String.compare (f a) (f (a + Z.of_nat (S k))) = Lt).
  { induction k as [|k IH]; intros a Ha Hb.
    - apply Hstep. lia.
    - apply (string_compare_lt_trans _ (f (a + Z.of_nat (S k)))).
      + apply IH; lia.
      + replace (a + Z.of_nat (S (S k))) with (a + Z.of_nat (S k) + 1) by lia.
        apply Hstep. lia. }
  intros a b Ha Hb. destruct (Z.compare_spec a b) as [->|Hlt|Hgt].
  - apply string_compare_refl.
  - replace b with (a + Z.of_nat (S (Z.to_nat (b - a - 1)))) by lia.
    apply Hup; lia.
  - rewrite String.compare_antisym.
    replace a with (b + Z.of_nat (S (Z.to_nat (a - b - 1)))) at 1 by lia.
    rewrite Hup by lia. reflexivity.
Qed.

Lemma two_digits_compare (a b : Z) :
  0 <= a <= 99 -> 0 <= b <= 99 ->
  String.compare (zero_padded 2 a) (zero_padded 2 b) = (a ?= b).
Proof.
  intros Ha Hb. apply (compare_from_steps (zero_padded 2) 100); try lia.
  intros k Hk.
  assert (Hlt : steps_up 2 k = true).
  { apply (all_from_spec (steps_up 2) 99 0); [vm_compute; reflexivity|lia]. }
  unfold steps_up in Hlt.
  destruct (String.compare (zero_padded 2 k) (zero_padded 2 (k + 1)));
    congruence.
Qed.

Lemma four_digits_compare (a b : Z) :
  0 <= a <= 9999 -> 0 <= b <= 9999 ->
  String.compare (zero_padded 4 a) (zero_padded 4 b) = (a ?= b).
Proof.
  intros Ha Hb. apply (compare_from_steps (zero_padded 4) 10000); try lia.
  intros k Hk.
  assert (Hlt : steps_up 4 k = true).
  { apply (all_from_spec (steps_up 4) (Z.to_nat 9999) 0); [vm_compute; reflexivity|lia]. }
  unfold steps_up in Hlt.
  destruct (String.compare (zero_padded 4 k) (zero_padded 4 (k + 1)));
    congruence.
Qed.

(** X16.  On dates written [YYYY-MM-DD] the byte-wise order of the strings,
    which is the order of [ORDER BY date], is the order of the calendar: the
    listing is chronological. *)
Theorem iso_dates_sort_chronologically (y1 m1 d1 y2 m2 d2 : Z) :
  valid_ymd y1 m1 d1 -> valid_ymd y2 m2 d2 ->
  String.compare (ymd y1 m1 d1) (ymd y2 m2 d2)
  = calendar_compare y1 m1 d1 y2 m2 d2
  /\ forall r1 r2 : Row,
       date r1 = SqlText (ymd y1 m1 d1) -> date r2 = SqlText (ymd y2 m2 d2) ->
       (date_le r1 r2 <-> calendar_compare y1 m1 d1 y2 m2 d2 <> Gt).
Proof.
  intros (Hy1 & Hm1 & Hd1) (Hy2 & Hm2 & Hd2).
  assert (Hcmp : String.compare (ymd y1 m1 d1) (ymd y2 m2 d2)
                 = calendar_compare y1 m1 d1 y2 m2 d2).
  { unfold ymd, calendar_compare.
    rewrite compare_app_same_length
      by (rewrite !(has_shape_length (digits 4)) by (apply four_digits; lia);
          reflexivity).
    rewrite four_digits_compare by lia.
    destruct (y1 ?= y2); try reflexivity.
    rewrite (compare_app_same_length "-" "-") by reflexivity.
    rewrite string_compare_refl.
    rewrite compare_app_same_length
      by (rewrite !(has_shape_length (digits 2)) by (apply two_digits; lia);
          reflexivity).
    rewrite two_digits_compare by lia.
    destruct (m1 ?= m2); try reflexivity.
    rewrite (compare_app_same_length "-" "-") by reflexivity.
    rewrite string_compare_refl.
    apply two_digits_compare; lia. }
  split; [exact Hcmp|].
  intros r1 r2 Hr1 Hr2.
  rewrite (date_le_text r1 r2 _ _ Hr1 Hr2). unfold String.leb. rewrite Hcmp.
  destruct (calendar_compare y1 m1 d1 y2 m2 d2); intuition congruence.
Qed.

Lemma iso_dates_sort_chronologically_witness :
  valid_ymd 2020 9 30 /\ valid_ymd 2020 10 1
  /\ String.compare (ymd 2020 9 30) (ymd 2020 10 1)
     = calendar_compare 2020 9 30 2020 10 1
  /\ forall r1 r2 : Row,
       date r1 = SqlText (ymd 2020 9 30) -> date r2 = SqlText (ymd 2020 10 1) ->
       (date_le r1 r2 <-> calendar_compare 2020 9 30 2020 10 1 <> Gt).
Proof.
  assert (H1 : valid_ymd 2020 9 30) by (unfold valid_ymd; lia).
  assert (H2 : valid_ymd 2020 10 1) by (unfold valid_ymd; lia).
  split; [exact H1|]. split; [exact H2|].
  exact (iso_dates_sort_chronologically 2020 9 30 2020 10 1 H1 H2).
Defined.

(** ** The timestamp of the health check *)

Lemma isoformat_to_the_second (dt : datetime) :
  valid_datetime dt ->
  has_shape to_the_second
    (zero_padded 4 (year dt) ++ "-" ++ zero_padded 2 (month dt)
       ++ "-" ++ zero_padded 2 (day dt) ++ "T"
       ++ zero_padded 2 (hour dt) ++ ":"
       ++ zero_padded 2 (minute dt) ++ ":"
       ++ zero_padded 2 (second dt)) = true.
Proof.
  intros (Hy & Hmo & Hd & Hh & Hmi & Hs & Hus). unfold to_the_second.
  repeat (apply has_shape_app;
          [first [apply four_digits; lia | apply two_digits; lia | reflexivity]|]).
  apply two_digits; lia.
Qed.

(** X17.  The timestamp of GET /api/health has two forms: 19 characters,
    without a fraction, when the clock's microsecond is exactly 0, and 26
    characters, with a six-digit fraction, otherwise. *)
Theorem health_timestamp_has_two_forms (w : world) :
  valid_datetime (clock w) ->
  exists timestamp,
    fst (health_check w)
    = Return (Response (JObj [("status", JStr "healthy");
                              ("timestamp", JStr timestamp)]) 200)
    /\ (microsecond (clock w) = 0 ->
        has_shape to_the_second timestamp = true
        /\ String.length timestamp = 19%nat)
    /\ (microsecond (clock w) <> 0 ->
        has_shape (to_the_second ++ fraction)%list timestamp = true
        /\ String.length timestamp = 26%nat).
Proof.
  intros Hclock. exists (isoformat (clock w)). split; [reflexivity|].
  pose proof (isoformat_to_the_second (clock w) Hclock) as Hsec.
  unfold isoformat. split.
  - intros ->. cbn [Z.eqb]. rewrite !string_app_empty.
    split; [exact Hsec|]. now rewrite (has_shape_length _ _ Hsec).
  - intros Hus. destruct (microsecond (clock w) =? 0) eqn:E; [lia|].
    assert (Hfrac : has_shape fraction
                      ("." ++ zero_padded 6 (microsecond (clock w))) = true).
    { change fraction with ([Lit "."%char] ++ digits 6)%list.
      apply has_shape_app; [reflexivity|].
      apply six_digits. destruct Hclock as (_ & _ & _ & _ & _ & _ & H). lia. }
    pose proof (has_shape_app _ _ _ _ Hsec Hfrac) as Hall.
    rewrite !string_app_assoc in Hall.
    split; [exact Hall|]. now rewrite (has_shape_length _ _ Hall).
Qed.

Lemma health_timestamp_has_two_forms_witness :
  valid_datetime (clock (mk_world (Database ∅)
                           (mk_datetime 2024 1 15 10 30 45 0) []))
  /\ exists timestamp,
       fst (health_check (mk_world (Database ∅)
                            (mk_datetime 2024 1 15 10 30 45 0) []))
       = Return (Response (JObj [("status", JStr "healthy");
                                 ("timestamp", JStr timestamp)]) 200)
       /\ (microsecond (clock (mk_world (Database ∅)
                                 (mk_datetime 2024 1 15 10 30 45 0) [])) = 0 ->
           has_shape to_the_second timestamp = true
           /\ String.length timestamp = 19%nat)
       /\ (microsecond (clock (mk_world (Database ∅)
                                 (mk_datetime 2024 1 15 10 30 45 0) [])) <> 0 ->
           has_shape (to_the_second ++ fraction)%list timestamp = true
           /\ String.length timestamp = 26%nat).
Proof.
  assert (Hclock : valid_datetime (mk_datetime 2024 1 15 10 30 45 0)).
  { unfold valid_datetime. cbn. lia. }
  split; [exact Hclock|].
  exact (health_timestamp_has_two_forms
           (mk_world (Database ∅) (mk_datetime 2024 1 15 10 30 45 0) []) Hclock).
Defined.
